(** * PyConHK2024-torch-lightning: the notebooks' own code, embedded and verified

    The repository is two notebooks.  The first (linear regression) defines
    [visualize], generates the data set [x], [y], builds the native loaders and
    the [DataModule] class.  The second (ResNet18 on CIFAR10) sets the Slack
    environment variables, defines [DATAPATH], [DataModuleCIFAR10],
    [search_space], [generate_hyperparameters] and the callback lists, and
    configures four kinds of training run.

    Conventions of the embedding:
    - Python floats are idealised as rationals ([Q]); every literal of the
      notebooks is a finite decimal and is written exactly.
    - a Python dict that the code iterates over is an association list in
      insertion order; a dict that is only written and read is a [gmap];
    - a keyword-argument call of a library constructor is a record of the
      arguments, [None] meaning that the notebook does not pass the argument;
    - random generators are a stream of draws with a cursor, threaded through
      the code that draws from them;
    - Python exceptions are the [Raise] case of [result]. *)

From Stdlib Require Import QArith Lqa.
From stdpp Require Import gmap strings list fin_maps.

Open Scope string_scope.

(** ** Python values and exceptions *)

Inductive exn : Type :=
  | AttributeError (msg : string)
  | KeyError (key : string)
  | RuntimeError (msg : string)
  | AssertionError
  | ZeroDivisionError
  | IndexError (msg : string)
  | ValueError (msg : string).

Inductive result (A : Type) : Type :=
  | Ok (a : A)
  | Raise (e : exn).
Arguments Ok {A} a.
Arguments Raise {A} e.

Definition rbind {A B : Type} (r : result A) (k : A -> result B) : result B :=
  match r with
  | Ok a => k a
  | Raise e => Raise e
  end.

Notation "'let*' x ':=' r 'in' k" := (rbind r (fun x => k))
  (at level 10, x pattern, r at level 100, k at level 200).

(** A pseudo-random generator (numpy's global [RandomState], torch's default
    generator): the stream of its future draws and a cursor into it. *)
Record Generator : Type := mkGenerator {
  draws : nat -> Q;
  cursor : nat
}.

Definition next_draw (g : Generator) : Q * Generator :=
  (draws g (cursor g), mkGenerator (draws g) (S (cursor g))).

Definition advance (k : nat) (g : Generator) : Generator :=
  mkGenerator (draws g) (k + cursor g).

(** ** Tensors (the operations the regression notebook calls) *)

Module Tensor.

Record t : Type := mk {
  shape : list nat;
  data : list Q
}.

Definition numel_of (shp : list nat) : nat := fold_right Nat.mul 1%nat shp.

Definition numel (a : t) : nat := numel_of (shape a).

(** [a.size(0)], the length of the first dimension; a tensor without
    dimensions has none. *)
Definition size0 (a : t) : result nat :=
  match shape a with
  | n :: _ => Ok n
  | [] => Raise (IndexError "Dimension specified as 0 but tensor has no dimensions")
  end.

(** [torch.linspace(start, end, steps)]: [steps] points from [start] to
    [end] inclusive, the common difference being [(end - start) / (steps - 1)]. *)
Definition linspace (start stop : Q) (steps : nat) : t :=
  let step := ((stop - start) / (inject_Z (Z.of_nat steps) - 1))%Q in
  mk [steps]
     (map (fun i => (start + inject_Z (Z.of_nat i) * step)%Q) (seq 0 steps)).

(** [a.view(dims...)]: at most one dimension is [-1] and is inferred from the
    number of elements; a shape that does not fit raises. *)
Definition view (a : t) (dims : list Z) : result t :=
  let known := filter (fun d => negb (d =? -1)%Z) dims in
  let p := fold_right Z.mul 1%Z known in
  let n := Z.of_nat (length (data a)) in
  if forallb (fun d => (0 <=? d)%Z) known then
    match (length dims - length known)%nat with
    | O =>
        if (p =? n)%Z then Ok (mk (map Z.to_nat dims) (data a))
        else Raise (RuntimeError "shape is invalid for input size")
    | S O =>
        if ((0 <? p)%Z && (n mod p =? 0)%Z)%bool then
          Ok (mk (map (fun d => if (d =? -1)%Z then Z.to_nat (n / p) else Z.to_nat d) dims)
                 (data a))
        else Raise (RuntimeError "shape is invalid for input size")
    | _ => Raise (RuntimeError "only one dimension can be inferred")
    end
  else Raise (RuntimeError "invalid shape dimension").

(** [a.flatten()] *)
Definition flatten (a : t) : t := mk [length (data a)] (data a).

(** [torch.randn_like(a)]: one draw of the generator per element. *)
Definition randn_like (a : t) (g : Generator) : t * Generator :=
  let n := length (data a) in
  (mk (shape a) (map (fun i => draws g (cursor g + i)) (seq 0 n)), advance n g).

(** [c * a] for a Python scalar [c]. *)
Definition scale (c : Q) (a : t) : t := mk (shape a) (map (Qmult c) (data a)).

(** [a + b] for tensors of one shape (the only case the notebook has;
    broadcasting between different shapes is not modelled and raises). *)
Definition add (a b : t) : result t :=
  if decide (shape a = shape b) then
    Ok (mk (shape a) (zip_with Qplus (data a) (data b)))
  else Raise (RuntimeError "shapes differ").

(** [a[i]], row [i] along the first dimension. *)
Definition row (a : t) (i : nat) : t :=
  let w := numel_of (tl (shape a)) in
  mk (tl (shape a)) (take w (drop (i * w) (data a))).

End Tensor.

(** ** Notebook 1, cell "Prepare a very simple dataset for linear regression" *)

(** [x = torch.linspace(0, 1, 500).view(-1, 1)]
    [y = x + 0.2 * torch.randn_like(x)] *)
Definition prepare_dataset (g : Generator) : result (Tensor.t * Tensor.t * Generator) :=
  let* x := Tensor.view (Tensor.linspace 0 1 500) [(-1)%Z; 1%Z] in
  let '(noise, g') := Tensor.randn_like x g in
  let* y := Tensor.add x (Tensor.scale (2 # 10) noise) in
  Ok (x, y, g').

(** ** Notebook 1, [visualize] *)

(** A value that may be Python's [None] (the [y_pred] parameter). *)
Inductive PyOpt (A : Type) : Type :=
  | PyNone
  | PyVal (a : A).
Arguments PyNone {A}.
Arguments PyVal {A} a.

Definition is_not_None {A : Type} (v : PyOpt A) : bool :=
  match v with
  | PyNone => false
  | PyVal _ => true
  end.

(** [v.flatten()] on a value that may be [None]: [None] has no such attribute. *)
Definition py_flatten (v : PyOpt Tensor.t) : result Tensor.t :=
  match v with
  | PyNone => Raise (AttributeError "'NoneType' object has no attribute 'flatten'")
  | PyVal a => Ok (Tensor.flatten a)
  end.

(** The calls [visualize] makes into matplotlib and seaborn, in order.  An
    argument the source does not pass is [None]. *)
Inductive PlotCall : Type :=
  | Subplots (figsize : nat * nat)
  | ScatterPlot (xs ys : Tensor.t) (color : option string) (label : string) (on_ax : bool)
  | LinePlot (xs ys : Tensor.t) (linestyle color label : string)
  | AxSet (xlabel ylabel title : string)
  | PltShow.

(** What the plotting library checks of the two coordinate arrays of a
    layer: it refuses arrays of different lengths. *)
Definition plot_data (xs ys : Tensor.t) : result unit :=
  if (length (Tensor.data xs) =? length (Tensor.data ys))%nat then Ok tt
  else Raise (ValueError "All arrays must be of the same length").

(** [def visualize(x, y, y_pred=None)]; an omitted third argument is [None]
    here and takes the default [PyNone].  The result is the list of the
    plot calls made, or the exception that one of them raised. *)
Definition visualize (x y : Tensor.t) (y_pred_arg : option (PyOpt Tensor.t))
  : result (list PlotCall) :=
  let y_pred := default PyNone y_pred_arg in
  let calls := [Subplots (6, 6)%nat] in
  let* _ := plot_data (Tensor.flatten x) (Tensor.flatten y) in
  let calls :=
    (calls ++ [ScatterPlot (Tensor.flatten x) (Tensor.flatten y) None "Observations" true])%list in
  let* _ := plot_data (Tensor.flatten x) (Tensor.flatten x) in
  let calls :=
    (calls ++ [LinePlot (Tensor.flatten x) (Tensor.flatten x) "--" "red" "Ground truth"])%list in
  let* calls :=
    (if is_not_None y_pred then
       let* p := py_flatten y_pred in
       let* _ := plot_data (Tensor.flatten x) p in
       Ok (calls ++ [ScatterPlot (Tensor.flatten x) p (Some "green") "Predictions" false])%list
     else Ok calls) in
  Ok (calls ++ [AxSet "X" "Y" "Simple linear regression dataset"; PltShow])%list.

Definition is_predictions_layer (c : PlotCall) : bool :=
  match c with
  | ScatterPlot _ _ _ label _ => bool_decide (label = "Predictions")
  | _ => false
  end.

(** ** Datasets and loaders *)

(** The map-style dataset interface of [torch.utils.data]. *)
Class Dataset (D : Type) : Type := {
  item : Type;
  len : D -> nat;
  getitem : D -> nat -> item
}.

(** [torch.utils.data.TensorDataset(tensors...)]. *)
Record TensorDataset : Type := mkTensorDataset {
  tensors : list Tensor.t
}.

(** The constructor's assertion
    [all(tensors[0].size(0) == tensor.size(0) for tensor in tensors)], tensor
    by tensor: asking a tensor without dimensions for its first dimension
    raises, and the first disagreement fails the assertion. *)
Fixpoint check_sizes (first : Tensor.t) (ts : list Tensor.t) : result unit :=
  match ts with
  | [] => Ok tt
  | a :: ts' =>
      let* n0 := Tensor.size0 first in
      let* n := Tensor.size0 a in
      if (n0 =? n)%nat then check_sizes first ts' else Raise AssertionError
  end.

Definition TensorDataset_init (ts : list Tensor.t) : result TensorDataset :=
  match ts with
  | [] => Ok (mkTensorDataset ts)
  | first :: _ =>
      let* _ := check_sizes first ts in
      Ok (mkTensorDataset ts)
  end.

(** [__len__] is the first dimension of the first tensor and [__getitem__]
    takes row [i] of every tensor.  In a data set built by the constructor
    from at least one tensor every tensor has a first dimension; the [0] is
    for the records that the constructor never builds. *)
#[export] Instance TensorDataset_Dataset : Dataset TensorDataset := {
  item := list Tensor.t;
  len d := hd 0%nat (Tensor.shape (default (Tensor.mk [] []) (head (tensors d))));
  getitem d i := map (fun a => Tensor.row a i) (tensors d)
}.

(** All the samples of a dataset, in index order. *)
Definition samples {D : Type} `{Dataset D} (d : D) : list item :=
  map (getitem d) (seq 0 (len d)).

(** A user-supplied Python object handed to a library constructor (a sampler,
    a collate function); the notebooks pass none. *)
Definition PyObject : Type := string.

(** A [torch.utils.data.DataLoader]: the arguments it was built with, [None]
    for an argument that was not passed. *)
Record DataLoader (D : Type) : Type := mkDataLoader {
  dataset : D;
  batch_size : option Z;
  shuffle : option bool;
  num_workers : option nat;
  sampler : option PyObject;
  batch_sampler : option PyObject;
  collate_fn : option PyObject;
  drop_last : option bool
}.
Arguments mkDataLoader {D}.
Arguments dataset {D}.
Arguments batch_size {D}.
Arguments shuffle {D}.
Arguments num_workers {D}.
Arguments sampler {D}.
Arguments batch_sampler {D}.
Arguments collate_fn {D}.
Arguments drop_last {D}.

(** The checks of the constructor [DataLoader(dataset, ...)] that the
    notebooks' calls can meet, in the library's order; [n] is what
    [len(dataset)] returns.  With [shuffle] and no sampler the library builds
    a random sampler, which refuses an empty data set; then it builds the
    batch sampler, which refuses a batch size that is not positive. *)
Definition DataLoader_init {D : Type} (n : N) (args : DataLoader D)
  : result (DataLoader D) :=
  match sampler args, batch_sampler args with
  | None, None =>
      if (default false (shuffle args) && (n =? 0)%N)%bool
      then Raise (ValueError "num_samples should be a positive integer value")
      else if (default 1%Z (batch_size args) <=? 0)%Z
      then Raise (ValueError "batch_size should be a positive integer value")
      else Ok args
  | _, _ => Raise (RuntimeError "custom sampling or collation")
  end.

(** Consecutive groups of [b] elements, the last one possibly shorter. *)
Fixpoint batched {A : Type} (b : nat) (fuel : nat) (l : list A) : list (list A) :=
  match fuel with
  | O => []
  | S fuel' =>
      match l with
      | [] => []
      | _ :: _ => take b l :: batched b fuel' (drop b l)
      end
  end.

(** What iterating over a loader serves when no sampler, batch sampler or
    collate function was supplied: the library's default batching.  [perm] is
    the order the library's random sampler picks when [shuffle] is true. *)
Definition iterate {D : Type} `{Dataset D} (dl : DataLoader D) (perm : list nat)
  : result (list (list item)) :=
  match sampler dl, batch_sampler dl, collate_fn dl with
  | None, None, None =>
      let b := default 1%Z (batch_size dl) in
      let n := len (dataset dl) in
      if (default false (shuffle dl) && (n =? 0)%nat)%bool
      then Raise (ValueError "num_samples should be a positive integer value")
      else if (b <=? 0)%Z
      then Raise (ValueError "batch_size should be a positive integer value")
      else
        let order := if default false (shuffle dl) then perm else seq 0 n in
        let groups := batched (Z.to_nat b) n order in
        let groups :=
          if default false (drop_last dl)
          then filter (fun grp => length grp =? Z.to_nat b)%nat groups
          else groups in
        Ok (map (map (getitem (dataset dl))) groups)
  | _, _, _ => Raise (RuntimeError "custom sampling or collation")
  end.

(** The four loader hooks of [lightning.LightningDataModule]; a hook that a
    subclass does not override is [None]. *)
Class LightningDataModule (M D : Type) : Type := {
  train_dataloader_hook : option (M -> result (DataLoader D));
  val_dataloader_hook : option (M -> result (DataLoader D));
  test_dataloader_hook : option (M -> result (DataLoader D));
  predict_dataloader_hook : option (M -> result (DataLoader D))
}.

(** ** Notebook 1, the native loaders *)

(** [train_dataloader = DataLoader(TensorDataset(x, y), batch_size=16, shuffle=True)] *)
Definition native_train_dataloader (x y : Tensor.t) : result (DataLoader TensorDataset) :=
  let* d := TensorDataset_init [x; y] in
  DataLoader_init (N.of_nat (len d)) (mkDataLoader d (Some 16%Z) (Some true) None None None None None).

(** [val_dataloader = DataLoader(TensorDataset(x, y), batch_size=16, shuffle=False)] *)
Definition native_val_dataloader (x y : Tensor.t) : result (DataLoader TensorDataset) :=
  let* d := TensorDataset_init [x; y] in
  DataLoader_init (N.of_nat (len d)) (mkDataLoader d (Some 16%Z) (Some false) None None None None None).

(** ** Notebook 1, [class DataModule(lightning.LightningDataModule)] *)

Module DataModule.

Record t : Type := mk {
  train_dataset : TensorDataset;
  val_dataset : TensorDataset;
  batch_size : Z
}.

(** [__init__(self, x, y, batch_size)] *)
Definition init (x y : Tensor.t) (batch_size : Z) : result t :=
  let* train := TensorDataset_init [x; y] in
  let* val := TensorDataset_init [x; y] in
  Ok (mk train val batch_size).

Definition train_dataloader (self : t) : result (DataLoader TensorDataset) :=
  DataLoader_init (N.of_nat (len (train_dataset self)))
    (mkDataLoader (train_dataset self) (Some (batch_size self)) (Some true)
                  None None None None None).

Definition val_dataloader (self : t) : result (DataLoader TensorDataset) :=
  DataLoader_init (N.of_nat (len (val_dataset self)))
    (mkDataLoader (val_dataset self) (Some (batch_size self)) (Some false)
                  None None None None None).

#[export] Instance hooks : LightningDataModule t TensorDataset := {
  train_dataloader_hook := Some train_dataloader;
  val_dataloader_hook := Some val_dataloader;
  test_dataloader_hook := None;
  predict_dataloader_hook := None
}.

End DataModule.

(** ** Notebook 2, the Slack environment variables *)

(** [os.environ["SLACK_APP_TOKEN"] = ""], and the same for the bot token and
    the default channel identifier, in the order of the cell. *)
Definition set_slack_environment (environ : gmap string string) : gmap string string :=
  <["SLACK_DEFAULT_CHANNEL_ID" := ""]>
    (<["SLACK_BOT_TOKEN" := ""]>
       (<["SLACK_APP_TOKEN" := ""]> environ)).

Definition slack_variables : list string :=
  ["SLACK_APP_TOKEN"; "SLACK_BOT_TOKEN"; "SLACK_DEFAULT_CHANNEL_ID"].

Module SlackClient.

Record t : Type := mk {
  app_token : option string;
  bot_token : option string;
  default_channel_id : option string
}.

(** Modelled from the spec: [demo.slack.client.SlackClient] is not among the
    sources.  The spec says that the client is configured from three
    environment variables (application token, bot token, default channel
    identifier) and that the repository validates none of them: the
    constructor reads the three variables and keeps what it finds. *)
Definition init (environ : gmap string string) : t :=
  mk (environ !! "SLACK_APP_TOKEN")
     (environ !! "SLACK_BOT_TOKEN")
     (environ !! "SLACK_DEFAULT_CHANNEL_ID").

End SlackClient.

(** ** Notebook 2, the CIFAR10 data module *)

Definition DATAPATH : string := "./data".

Definition class_labels : list string :=
  ["plane"; "car"; "bird"; "cat"; "deer"; "dog"; "frog"; "horse"; "ship"; "truck"].

#[warnings="-register-all"] Inductive Transform : Type :=
  | ToTensor
  | Normalize (mean std : list Q)
  | Compose (ts : list Transform).

Definition transform : Transform :=
  Compose [ToTensor; Normalize [1 # 2; 1 # 2; 1 # 2]%Q [1 # 2; 1 # 2; 1 # 2]%Q].

Definition denorm_fn : Transform := Normalize [-1; -1; -1]%Q [2; 2; 2]%Q.

(** A call [torchvision.datasets.CIFAR10(...)]: the arguments. *)
Record CIFAR10 : Type := mkCIFAR10 {
  root : option string;
  train : option bool;
  download : option bool;
  cifar_transform : option Transform
}.

(** [len] of a CIFAR10 data set: the 50,000 training images, or the 10,000
    test images when [train] is false ([train] defaults to true). *)
Definition CIFAR10_len (d : CIFAR10) : N :=
  if default true (train d) then 50000%N else 10000%N.

Module DataModuleCIFAR10.

Record t : Type := mk {
  train_dataset : CIFAR10;
  val_dataset : CIFAR10;
  batch_size : Z
}.

(** [__init__(self, batch_size)] *)
Definition init (batch_size : Z) : t :=
  mk (mkCIFAR10 (Some DATAPATH) (Some true) (Some true) (Some transform))
     (mkCIFAR10 (Some DATAPATH) (Some false) (Some true) (Some transform))
     batch_size.

Definition train_dataloader (self : t) : result (DataLoader CIFAR10) :=
  DataLoader_init (CIFAR10_len (train_dataset self))
    (mkDataLoader (train_dataset self) (Some (batch_size self)) (Some true) (Some 4%nat)
                  None None None None).

Definition val_dataloader (self : t) : result (DataLoader CIFAR10) :=
  DataLoader_init (CIFAR10_len (val_dataset self))
    (mkDataLoader (val_dataset self) (Some (batch_size self)) (Some false) (Some 4%nat)
                  None None None None).

#[export] Instance hooks : LightningDataModule t CIFAR10 := {
  train_dataloader_hook := Some train_dataloader;
  val_dataloader_hook := Some val_dataloader;
  test_dataloader_hook := None;
  predict_dataloader_hook := None
}.

End DataModuleCIFAR10.

(** [data_module = DataModuleCIFAR10(batch_size=512)] *)
Definition data_module : DataModuleCIFAR10.t := DataModuleCIFAR10.init 512.

(** ** Notebook 2, hyperparameters *)

Abbreviation Hyperparameters := (gmap string (gmap string Q)).

(** [search_space]: a dict of dicts that [generate_hyperparameters] iterates
    over, so an association list in insertion order; each two-element list
    [[low, high]] is a pair, [subvalue[0]] its first and [subvalue[1]] its
    second component. *)
Definition search_space : list (string * list (string * (Q * Q))) :=
  [ ("optimizer", [ ("lr", (1 # 10000000, 1 # 100000)%Q);
                    ("weight_decay", (1 # 100, 1 # 10)%Q) ]);
    ("scheduler", [ ("step_size", (5, 10)%Q);
                    ("gamma", (1 # 10, 1 # 2)%Q) ]) ].

Definition n_samples : nat := 5.

(** [np.random.uniform(low, high)]: [low + (high - low) * u] for the next
    draw [u] of the generator, which lies in [[0, 1)]. *)
Definition uniform (low high : Q) (g : Generator) : Q * Generator :=
  let '(u, g') := next_draw g in
  ((low + (high - low) * u)%Q, g').

Definition unit_draws (g : Generator) : Prop :=
  forall n, (0 <= draws g n)%Q /\ (draws g n < 1)%Q.

(** A generator all of whose draws are one half. *)
Definition half_draws : Generator := mkGenerator (fun _ => (1 # 2)%Q) 0.

(** The inner loop: [hyperparameters[key][subkey] = np.random.uniform(...)]
    for every item of [value].  [hyperparameters[key]] is present when the
    loop runs: the outer loop has just assigned it. *)
Definition sample_group (key : string) (value : list (string * (Q * Q)))
    (acc : Hyperparameters * Generator) : Hyperparameters * Generator :=
  fold_left
    (fun '(hyperparameters, g) '(subkey, subvalue) =>
       let '(v, g') := uniform (fst subvalue) (snd subvalue) g in
       (alter (insert subkey v) key hyperparameters, g'))
    value acc.

(** [def generate_hyperparameters()], reading the global [search_space] and
    drawing from numpy's global generator. *)
Definition generate_hyperparameters (g : Generator) : Hyperparameters * Generator :=
  fold_left
    (fun '(hyperparameters, g) '(key, value) =>
       sample_group key value (<[key := ∅]> hyperparameters, g))
    search_space (∅, g).

(** The boundary condition as a check one can run on a dictionary: the keys
    and sub-keys are those of [search_space] and every value is in its range. *)
Definition group_in_range (value : list (string * (Q * Q))) (sub : gmap string Q) : bool :=
  bool_decide (dom sub = list_to_set (value.*1)) &&
  forallb (fun '(subkey, (low, high)) =>
             match sub !! subkey with
             | Some v => Qle_bool low v && Qle_bool v high
             | None => false
             end) value.

Definition in_search_space (hyperparameters : Hyperparameters) : bool :=
  bool_decide (dom hyperparameters = list_to_set (search_space.*1)) &&
  forallb (fun '(key, value) =>
             match hyperparameters !! key with
             | Some sub => group_in_range value sub
             | None => false
             end) search_space.

(** The fixed dictionaries of the other cells. *)
Definition first_hyperparameters : Hyperparameters :=
  {[ "optimizer" := {[ "lr" := (1 # 10000000)%Q; "weight_decay" := (1 # 100)%Q ]};
     "scheduler" := {[ "step_size" := 5%Q; "gamma" := (1 # 10)%Q ]} ]}.

Definition callbacks_hyperparameters : Hyperparameters :=
  {[ "optimizer" := {[ "lr" := 1%Q; "weight_decay" := (1 # 100)%Q ]};
     "scheduler" := {[ "step_size" := 5%Q; "gamma" := (1 # 10)%Q ]} ]}.

(** A call [demo.lightning.models.ResNet18(...)]: the arguments. *)
Record ResNet18 : Type := mkResNet18 {
  num_classes : nat;
  model_class_labels : list string;
  model_denorm_fn : Transform;
  hyperparameters : Hyperparameters
}.

Definition resnet (h : Hyperparameters) : ResNet18 :=
  mkResNet18 (length class_labels) class_labels denorm_fn h.

(** ** Notebook 2, callbacks and trainers *)

(** The arguments of [lightning.pytorch.callbacks.EarlyStopping(...)] that
    the notebook passes; for the others ([min_delta], [check_finite], the
    thresholds) the library's defaults apply. *)
Record EarlyStoppingArgs : Type := mkEarlyStopping {
  es_monitor : string;
  es_mode : string;
  es_patience : nat;
  es_verbose : bool
}.

(** The arguments of [lightning.pytorch.callbacks.ModelCheckpoint(...)]; an
    argument that is not passed is [None] and the library's default applies. *)
Record ModelCheckpointArgs : Type := mkModelCheckpoint {
  dirpath : option string;
  filename : option string;
  mc_monitor : option string;
  save_top_k : option nat;
  mc_mode : option string;
  mc_verbose : option bool
}.

(** The arguments of [demo.lightning.callbacks.slack.MonitorTrainingOnSlack(...)]. *)
Record MonitorTrainingOnSlackArgs : Type := mkMonitorTrainingOnSlack {
  slack_client : SlackClient.t;
  log_every_n_epoch : nat
}.

Inductive Callback : Type :=
  | EarlyStopping (a : EarlyStoppingArgs)
  | ModelCheckpoint (a : ModelCheckpointArgs)
  | MonitorTrainingOnSlack (a : MonitorTrainingOnSlackArgs).

(** The arguments of [lightning.pytorch.Trainer(...)]; no [callbacks]
    argument is the empty list, and [check_val_every_n_epoch] is [None] when
    it is not passed. *)
Record Trainer : Type := mkTrainer {
  max_epochs : nat;
  log_every_n_steps : nat;
  check_val_every_n_epoch : option nat;
  callbacks : list Callback
}.

(** Cell "Built-in Callbacks". *)
Definition builtin_callbacks : list Callback :=
  [ EarlyStopping (mkEarlyStopping "val_loss" "min" 1 true);
    ModelCheckpoint
      (mkModelCheckpoint (Some "./models") (Some "resnet18_cifar10_best_{epoch:02d}")
                         (Some "val_loss") (Some 1%nat) (Some "min") (Some true)) ].

(** Cell "Customized Callbacks": [slack_client = demo.slack.client.SlackClient()]
    and the one-element list. *)
Definition slack_callbacks (environ : gmap string string) : list Callback :=
  [ MonitorTrainingOnSlack (mkMonitorTrainingOnSlack (SlackClient.init environ) 1) ].

(** Notebook 1: [lightning.pytorch.Trainer(max_epochs=5, log_every_n_steps=1)]. *)
Definition regression_trainer : Trainer := mkTrainer 5 1 None [].

(** The trainers of the four kinds of run of notebook 2, in its order. *)
Definition first_trainer : Trainer := mkTrainer 10 1 (Some 1%nat) [].
Definition search_trainer : Trainer := mkTrainer 10 1 (Some 1%nat) [].
Definition builtin_trainer : Trainer := mkTrainer 10 1 (Some 1%nat) builtin_callbacks.
Definition slack_trainer (environ : gmap string string) : Trainer :=
  mkTrainer 50 1 (Some 1%nat) (slack_callbacks environ).

(** The search cell: [for _ in range(n_samples)], each turn draws a
    dictionary and configures a model and a trainer. *)
Fixpoint hyperparameter_search (turns : nat) (g : Generator)
  : list (ResNet18 * Trainer) * Generator :=
  match turns with
  | O => ([], g)
  | S turns' =>
      let '(h, g') := generate_hyperparameters g in
      let '(runs, g'') := hyperparameter_search turns' g' in
      ((resnet h, search_trainer) :: runs, g'')
  end.

(** Every trainer the two notebooks configure. *)
Definition notebook_trainers (environ : gmap string string) : list Trainer :=
  [ regression_trainer; first_trainer; search_trainer; builtin_trainer;
    slack_trainer environ ].

(** A Slack callback with a period of two epochs. *)
Definition every_two_epochs : MonitorTrainingOnSlackArgs :=
  mkMonitorTrainingOnSlack (SlackClient.mk (Some "") (Some "") (Some "")) 2.

(** Where a path or a pattern that the libraries use comes from. *)
Inductive Origin : Type :=
  | SuppliedByNotebook
  | LibraryDefault.

Definition origin {A : Type} (argument : option A) : Origin :=
  match argument with
  | Some _ => SuppliedByNotebook
  | None => LibraryDefault
  end.

Definition checkpoint_callbacks (cbs : list Callback) : list ModelCheckpointArgs :=
  omap (fun cb => match cb with ModelCheckpoint a => Some a | _ => None end) cbs.

Definition has_early_stopping (cbs : list Callback) : bool :=
  existsb (fun cb => match cb with EarlyStopping _ => true | _ => false end) cbs.

(** The checkpoint callbacks a trainer works with: those it was given, or,
    when it was given none, the one the library adds with its default
    arguments ([enable_checkpointing] is not passed and defaults to true). *)
Definition default_model_checkpoint : ModelCheckpointArgs :=
  mkModelCheckpoint None None None None None None.

Definition configured_checkpoints (t : Trainer) : list ModelCheckpointArgs :=
  match checkpoint_callbacks (callbacks t) with
  | [] => [default_model_checkpoint]
  | given => given
  end.

(** ** The training loop and what the callbacks do at the end of an epoch *)

(** Calls of the Slack callback into the messaging service. *)
Inductive SlackCall : Type :=
  | PostMessage (channel : option string) (text : string)
  | CheckStopFlag (channel : option string).

(** A logged metric: a finite value, or one that is not (nan or an infinity). *)
Inductive Metric : Type :=
  | Finite (value : Q)
  | NonFinite.

(** What a training run meets from outside: the monitored validation loss of
    each epoch, and what the messaging service answers at each epoch (whether
    the post was delivered, whether a stop was requested). *)
Record Outside : Type := mkOutside {
  val_loss : nat -> Metric;
  post_delivered : nat -> bool;
  stop_requested : nat -> bool
}.

(** The state the loop carries: the early-stopping callback's best score and
    wait counter, the trainer's [should_stop] flag, and the trace of calls
    into the messaging service. *)
Record LoopState : Type := mkLoopState {
  best_score : option Q;
  wait_count : nat;
  should_stop : bool;
  slack_trace : list SlackCall
}.

Definition initial_state : LoopState := mkLoopState None 0 false [].

(** The remote flag set from the first epoch on. *)
Definition stop_at_once : nat -> bool := fun _ => true.

(** A run whose loss stays at 1 and for which a stop is requested at once. *)
Definition stopped_at_once : Outside :=
  mkOutside (fun _ => Finite 1) (fun _ => true) stop_at_once.

Section Training.

(** Modelled from the spec: [MonitorTrainingOnSlack] is not among the
    sources.  The spec gives it a fixed epoch cadence, a formatted status
    string and a poll for a stop instruction; it fixes neither the phase of
    the cadence nor the format, which are parameters here. *)
Variable phase : nat.
Variable format_status : nat -> Metric -> string.

Definition on_cadence (a : MonitorTrainingOnSlackArgs) (epoch : nat) : bool :=
  ((epoch + phase) mod log_every_n_epoch a =? 0)%nat.

(** Modelled from the spec: the callback at the end of an epoch.  On the
    cadence it posts the status string, then checks the remote flag, and
    requests termination when the flag is set; off the cadence it does
    nothing.  The answer to the post is not looked at. *)
Definition slack_on_epoch_end (a : MonitorTrainingOnSlackArgs) (epoch : nat)
    (loss : Metric) (delivered stop : bool) : list SlackCall * bool :=
  let channel := SlackClient.default_channel_id (slack_client a) in
  if on_cadence a epoch
  then ([PostMessage channel (format_status epoch loss); CheckStopFlag channel], stop)
  else ([], false).

(** The library's early stopping for the arguments the notebook passes
    (no [min_delta], no thresholds, [check_finite] left at its default, true):
    a monitored value that is not finite asks training to stop at once;
    otherwise an epoch improves when the value is strictly better than the
    best one so far (any finite value is, at first); when it does not, the
    wait counter grows, and training is asked to stop once the counter
    reaches [patience]. *)
Definition early_stopping_on_epoch_end (a : EarlyStoppingArgs) (current : Metric)
    (st : LoopState) : LoopState :=
  match current with
  | NonFinite => mkLoopState (best_score st) (wait_count st) true (slack_trace st)
  | Finite current =>
      let improved :=
        match best_score st with
        | None => true
        | Some best =>
            if String.eqb (es_mode a) "min"
            then negb (Qle_bool best current)
            else negb (Qle_bool current best)
        end in
      if improved
      then mkLoopState (Some current) 0 (should_stop st) (slack_trace st)
      else
        let w := S (wait_count st) in
        mkLoopState (best_score st) w (should_stop st || (es_patience a <=? w)%nat)
                    (slack_trace st)
  end.

Definition on_epoch_end (out : Outside) (epoch : nat) (st : LoopState) (cb : Callback)
  : LoopState :=
  match cb with
  | EarlyStopping a => early_stopping_on_epoch_end a (val_loss out epoch) st
  | ModelCheckpoint _ => st
  | MonitorTrainingOnSlack a =>
      let '(calls, stop) :=
        slack_on_epoch_end a epoch (val_loss out epoch)
                           (post_delivered out epoch) (stop_requested out epoch) in
      mkLoopState (best_score st) (wait_count st) (should_stop st || stop)
                  (slack_trace st ++ calls)
  end.

(** [trainer.fit]: at most [max_epochs] epochs; after each one the callbacks
    run in list order and the loop ends when [should_stop] is set.  The
    result is the number of epochs run and the final state. *)
Fixpoint fit_loop (cbs : list Callback) (out : Outside) (remaining epoch : nat)
    (st : LoopState) : nat * LoopState :=
  match remaining with
  | O => (epoch, st)
  | S remaining' =>
      let st' := fold_left (on_epoch_end out epoch) cbs st in
      if should_stop st' then (S epoch, st')
      else fit_loop cbs out remaining' (S epoch) st'
  end.

Definition fit (t : Trainer) (out : Outside) : nat * LoopState :=
  fit_loop (callbacks t) out (max_epochs t) 0 initial_state.

Definition epochs_run (t : Trainer) (out : Outside) : nat := fst (fit t out).

End Training.

(** ** Applying the image transforms *)

(** An image as the list of its channels, each the list of its pixel values. *)
Definition Image : Type := list (list Q).

(** How a per-channel parameter list meets an image of [c] channels: one
    value per channel, or a single value used for every channel. *)
Definition channel_parameter (l : list Q) (c i : nat) : option Q :=
  if (length l =? c)%nat then l !! i
  else if (length l =? 1)%nat then l !! 0%nat
  else None.

(** [torchvision.transforms.Normalize(mean, std)] on an image: a zero [std]
    is refused, parameter lists that fit neither way raise, and otherwise
    every pixel [p] of channel [i] becomes [(p - mean[i]) / std[i]]. *)
Definition normalize (mean std : list Q) (img : Image) : result Image :=
  let c := length img in
  if existsb (fun s => Qeq_bool s 0) std
  then Raise (ValueError "std evaluated to zero")
  else if (((length mean =? c) || (length mean =? 1)) &&
           ((length std =? c) || (length std =? 1)))%nat%bool
  then Ok (imap (fun i channel =>
                   let m := default 0%Q (channel_parameter mean c i) in
                   let s := default 1%Q (channel_parameter std c i) in
                   map (fun p => ((p - m) / s)%Q) channel) img)
  else Raise (RuntimeError "parameters do not match the channels").

(** A transform applied to an image.  [ToTensor] rescales the 8-bit pixel
    values to [[0, 1]] (its change of memory layout has no counterpart
    here); [Compose] applies its transforms from first to last. *)
Fixpoint apply_transform (t : Transform) (img : Image) : result Image :=
  match t with
  | ToTensor => Ok (map (map (fun p => (p / 255)%Q)) img)
  | Normalize mean std => normalize mean std img
  | Compose ts =>
      (fix apply_all (ts : list Transform) (img : Image) : result Image :=
         match ts with
         | [] => Ok img
         | t :: ts' => let* img' := apply_transform t img in apply_all ts' img'
         end) ts img
  end.

(** A small three-channel image with 8-bit pixel values. *)
Definition sample_image : Image :=
  [ [0; 255; 128]%Q; [17; 34; 51]%Q; [255; 0; 1]%Q ].

(** Small tensors: five inputs, five targets, and three targets. *)
Definition small_x : Tensor.t := Tensor.mk [5; 1]%nat [0; 1 # 4; 1 # 2; 3 # 4; 1]%Q.
Definition small_y : Tensor.t :=
  Tensor.mk [5; 1]%nat [1 # 10; 1 # 5; 3 # 5; 7 # 10; 9 # 10]%Q.
Definition short_y : Tensor.t := Tensor.mk [3; 1]%nat [1 # 10; 1 # 5; 3 # 5]%Q.

(** A regression data module over five samples, with batch size 2. *)
Definition small_data_module : DataModule.t :=
  DataModule.mk (mkTensorDataset [small_x; small_y]) (mkTensorDataset [small_x; small_y]) 2.

(** * Theorems *)

(** ** The regression data set *)

Lemma view_column (a : Tensor.t) :
  Tensor.view a [(-1)%Z; 1%Z] = Ok (Tensor.mk [length (Tensor.data a); 1%nat] (Tensor.data a)).
Proof.
  unfold Tensor.view. cbn [filter forallb negb Z.eqb length Nat.sub fold_right map].
  simpl.
  rewrite Z.mod_1_r, Z.div_1_r, Nat2Z.id. reflexivity.
Qed.

Lemma linspace_length (a b : Q) (n : nat) :
  length (Tensor.data (Tensor.linspace a b n)) = n.
Proof. unfold Tensor.linspace. simpl. now rewrite length_map, length_seq. Qed.

Lemma linspace_lookup (a b : Q) (n i : nat) :
  (i < n)%nat ->
  Tensor.data (Tensor.linspace a b n) !! i
  = Some (a + inject_Z (Z.of_nat i) * ((b - a) / (inject_Z (Z.of_nat n) - 1)))%Q.
Proof.
  intros Hi. unfold Tensor.linspace. simpl.
  rewrite list_lookup_fmap, lookup_seq_lt by assumption. reflexivity.
Qed.

Lemma randn_like_lookup (a : Tensor.t) (g : Generator) (i : nat) :
  (i < length (Tensor.data a))%nat ->
  Tensor.data (fst (Tensor.randn_like a g)) !! i = Some (draws g (cursor g + i)).
Proof.
  intros Hi. unfold Tensor.randn_like. simpl.
  rewrite list_lookup_fmap, lookup_seq_lt by assumption. reflexivity.
Qed.

Lemma prepare_dataset_eq (g : Generator) :
  let xs := Tensor.data (Tensor.linspace 0 1 500) in
  let noise := Tensor.data (fst (Tensor.randn_like (Tensor.mk [500; 1]%nat xs) g)) in
  prepare_dataset g
  = Ok (Tensor.mk [500; 1]%nat xs,
        Tensor.mk [500; 1]%nat (zip_with Qplus xs (map (Qmult (2 # 10)) noise)),
        advance 500 g).
Proof.
  intros xs noise. unfold prepare_dataset.
  rewrite view_column. fold xs.
  assert (Hlen : length xs = 500%nat) by apply linspace_length.
  rewrite Hlen. cbn [rbind].
  unfold Tensor.randn_like. cbn [Tensor.data Tensor.shape].
  rewrite Hlen. unfold Tensor.add, Tensor.scale. cbn [Tensor.shape Tensor.data].
  rewrite decide_True by reflexivity. cbn [rbind].
  subst noise. unfold Tensor.randn_like. cbn [fst Tensor.data Tensor.shape].
  rewrite Hlen. reflexivity.
Qed.

(** C8.  The regression data set: [x] is 500 evenly spaced values from 0 to 1
    (value [i] is [i / 499]) as 500 rows of one feature, and [y] has the same
    shape, each target being its input plus 0.2 times one noise draw. *)
Theorem C8_regression_dataset (g : Generator) :
  exists x y g',
    prepare_dataset g = Ok (x, y, g') /\
    Tensor.shape x = [500; 1]%nat /\
    Tensor.shape y = Tensor.shape x /\
    length (Tensor.data x) = 500%nat /\
    length (Tensor.data y) = 500%nat /\
    (exists first last,
        Tensor.data x !! 0%nat = Some first /\ (first == 0)%Q /\
        Tensor.data x !! 499%nat = Some last /\ (last == 1)%Q) /\
    forall i, (i < 500)%nat ->
      exists xi,
        Tensor.data x !! i = Some xi /\
        (xi == inject_Z (Z.of_nat i) / 499)%Q /\
        Tensor.data y !! i = Some (xi + (2 # 10) * draws g (cursor g + i))%Q.
Proof.
  pose proof (prepare_dataset_eq g) as Heq. cbv zeta in Heq.
  set (xs := Tensor.data (Tensor.linspace 0 1 500)) in *.
  assert (Hlen : length xs = 500%nat) by apply linspace_length.
  eexists _, _, _. split; [exact Heq|]. cbn [Tensor.shape Tensor.data].
  split; [reflexivity|]. split; [reflexivity|]. split; [exact Hlen|].
  split.
  { rewrite length_zip_with, length_map. unfold Tensor.randn_like.
    cbn [fst Tensor.data]. rewrite length_map, length_seq. lia. }
  split.
  { exists (0 + inject_Z (Z.of_nat 0) * ((1 - 0) / (inject_Z (Z.of_nat 500) - 1)))%Q,
           (0 + inject_Z (Z.of_nat 499) * ((1 - 0) / (inject_Z (Z.of_nat 500) - 1)))%Q.
    subst xs. rewrite !linspace_lookup by lia.
    repeat split; reflexivity. }
  intros i Hi.
  exists (0 + inject_Z (Z.of_nat i) * ((1 - 0) / (inject_Z (Z.of_nat 500) - 1)))%Q.
  split; [subst xs; now apply linspace_lookup|].
  split.
  { change (inject_Z (Z.of_nat 500) - 1)%Q with (499 # 1)%Q. field. }
  rewrite lookup_zip_with. 
  subst xs. rewrite linspace_lookup by assumption. cbn [mbind option_bind].
  rewrite list_lookup_fmap, randn_like_lookup by (cbn [Tensor.data]; rewrite linspace_length; lia).
  reflexivity.
Qed.

(** ** [visualize] *)

(** What [visualize] does, case by case: the lengths of [x] and [y] are
    checked by the first scatter plot, the length of [y_pred] by the last. *)
Lemma visualize_cases (x y : Tensor.t) (y_pred_arg : option (PyOpt Tensor.t)) :
  visualize x y y_pred_arg
  = if (length (Tensor.data x) =? length (Tensor.data y))%nat
    then match default PyNone y_pred_arg with
         | PyNone =>
             Ok [ Subplots (6, 6)%nat;
                  ScatterPlot (Tensor.flatten x) (Tensor.flatten y) None "Observations" true;
                  LinePlot (Tensor.flatten x) (Tensor.flatten x) "--" "red" "Ground truth";
                  AxSet "X" "Y" "Simple linear regression dataset";
                  PltShow ]
         | PyVal p =>
             if (length (Tensor.data x) =? length (Tensor.data p))%nat
             then Ok [ Subplots (6, 6)%nat;
                       ScatterPlot (Tensor.flatten x) (Tensor.flatten y) None
                                   "Observations" true;
                       LinePlot (Tensor.flatten x) (Tensor.flatten x) "--" "red"
                                "Ground truth";
                       ScatterPlot (Tensor.flatten x) (Tensor.flatten p) (Some "green")
                                   "Predictions" false;
                       AxSet "X" "Y" "Simple linear regression dataset";
                       PltShow ]
             else Raise (ValueError "All arrays must be of the same length")
         end
    else Raise (ValueError "All arrays must be of the same length").
Proof.
  unfold visualize, plot_data. cbn [Tensor.flatten Tensor.data].
  destruct (length (Tensor.data x) =? length (Tensor.data y))%nat; [|reflexivity].
  cbn [rbind]. rewrite Nat.eqb_refl. cbn [rbind].
  destruct (default PyNone y_pred_arg) as [|p]; [reflexivity|].
  cbn [is_not_None py_flatten rbind Tensor.flatten Tensor.data].
  destruct (length (Tensor.data x) =? length (Tensor.data p))%nat; reflexivity.
Qed.


(** ** Default batching serves the data set as it is *)

Lemma batched_concat {A : Type} (b fuel : nat) (l : list A) :
  (0 < b)%nat -> (length l <= fuel)%nat -> concat (batched b fuel l) = l.
Proof.
  intros Hb. revert l.
  induction fuel as [|fuel IH]; intros l Hl.
  - destruct l; [reflexivity|simpl in Hl; lia].
  - destruct l as [|a l]; [reflexivity|].
    cbn [batched concat]. rewrite IH.
    + apply take_drop.
    + rewrite length_drop. simpl in *. lia.
Qed.

Lemma batched_sizes {A : Type} (b fuel : nat) (l : list A) :
  (0 < b)%nat ->
  Forall (fun grp => (0 < length grp <= b)%nat) (batched b fuel l).
Proof.
  intros Hb. revert l.
  induction fuel as [|fuel IH]; intros l; [constructor|].
  destruct l as [|a l]; [constructor|].
  cbn [batched]. constructor; [|apply IH].
  rewrite length_take. simpl. lia.
Qed.

Lemma concat_map_map {A B : Type} (f : A -> B) (groups : list (list A)) :
  concat (map (map f) groups) = map f (concat groups).
Proof.
  induction groups as [|grp groups IH]; [reflexivity|].
  cbn [map concat]. rewrite map_app. now f_equal.
Qed.

Lemma N_of_nat_eqb_0 (n : nat) : (N.of_nat n =? 0)%N = (n =? 0)%nat.
Proof. now destruct n. Qed.

(** The constructor on the calls the notebooks make. *)
Lemma DataLoader_init_plain {D : Type} (n : N) (d : D) (b : Z) (shuffled : bool)
    (workers : option nat) :
  DataLoader_init n (mkDataLoader d (Some b) (Some shuffled) workers None None None None)
  = if (shuffled && (n =? 0)%N)%bool
    then Raise (ValueError "num_samples should be a positive integer value")
    else if (b <=? 0)%Z
    then Raise (ValueError "batch_size should be a positive integer value")
    else Ok (mkDataLoader d (Some b) (Some shuffled) workers None None None None).
Proof. reflexivity. Qed.

Lemma iterate_in_order {D : Type} `{Dataset D} (d : D) (b : Z) (workers : option nat)
    (perm : list nat) :
  (0 < b)%Z ->
  exists served,
    iterate (mkDataLoader d (Some b) (Some false) workers None None None None) perm
    = Ok served /\
    concat served = samples d /\
    Forall (fun grp => (0 < length grp <= Z.to_nat b)%nat) served.
Proof.
  intros Hb. unfold iterate. cbn.
  destruct (b <=? 0)%Z eqn:E; [apply Z.leb_le in E; lia|].
  eexists. split; [reflexivity|]. split.
  - rewrite concat_map_map, batched_concat by (rewrite ?length_seq; lia).
    reflexivity.
  - apply Forall_fmap.
    eapply Forall_impl; [apply batched_sizes; lia|].
    intros grp Hgrp. cbn. now rewrite length_map.
Qed.

Lemma iterate_shuffled {D : Type} `{Dataset D} (d : D) (b : Z) (workers : option nat)
    (perm : list nat) :
  (0 < b)%Z -> (0 < len d)%nat -> (length perm <= len d)%nat ->
  exists served,
    iterate (mkDataLoader d (Some b) (Some true) workers None None None None) perm
    = Ok served /\
    concat served = map (getitem d) perm /\
    Forall (fun grp => (0 < length grp <= Z.to_nat b)%nat) served.
Proof.
  intros Hb Hn Hperm. unfold iterate. cbn.
  destruct (len d =? 0)%nat eqn:En; [apply Nat.eqb_eq in En; lia|].
  destruct (b <=? 0)%Z eqn:E; [apply Z.leb_le in E; lia|].
  eexists. split; [reflexivity|]. split.
  - rewrite concat_map_map, batched_concat by lia. reflexivity.
  - apply Forall_fmap.
    eapply Forall_impl; [apply batched_sizes; lia|].
    intros grp Hgrp. cbn. now rewrite length_map.
Qed.

(** ** Data modules *)

Lemma TensorDataset_init_Ok (ts : list Tensor.t) (d : TensorDataset) :
  TensorDataset_init ts = Ok d -> d = mkTensorDataset ts.
Proof.
  unfold TensorDataset_init. destruct ts as [|first ts]; [congruence|].
  destruct (check_sizes first (first :: ts)); cbn [rbind]; congruence.
Qed.

(** What the constructor of the regression data module stores. *)
Lemma DataModule_init_Ok (x y : Tensor.t) (batch_size : Z) (self : DataModule.t) :
  DataModule.init x y batch_size = Ok self ->
  self = DataModule.mk (mkTensorDataset [x; y]) (mkTensorDataset [x; y]) batch_size.
Proof.
  unfold DataModule.init.
  destruct (TensorDataset_init [x; y]) as [d|e] eqn:Hd; cbn [rbind]; [|discriminate].
  apply TensorDataset_init_Ok in Hd. subst d. congruence.
Qed.

(** C4, the claim as stated fails.  Not each call to an accessor returns a
    loader: a data module built with batch size 0 is accepted by the
    constructor, and its accessors raise when the library's [DataLoader]
    refuses the batch size. *)
Lemma C4_each_call_returns_counterexample :
  ~ (forall (x y : Tensor.t) (batch_size : Z) (self : DataModule.t),
        DataModule.init x y batch_size = Ok self ->
        exists train val,
          DataModule.train_dataloader self = Ok train /\
          DataModule.val_dataloader self = Ok val).
Proof.
  intros Hclaim.
  destruct (Hclaim small_x small_y 0%Z _ eq_refl) as (train & val & Htrain & _).
  discriminate.
Qed.

(** C4, amended.  Both data-module classes override exactly two of the
    loader hooks, [train_dataloader] and [val_dataloader].  Each accessor
    calls the library's [DataLoader] on the data set stored by the
    constructor with the stored batch size, passing no sampler, batch sampler
    or collate function (only [shuffle], and [num_workers=4] for CIFAR10),
    and returns the loader when the batch size is positive (and, for the
    shuffled training loader, the data set is not empty); otherwise the
    library's constructor raises.  For the regression module the loaders then
    serve the stored samples unchanged: the validation loader in index order,
    the training loader in the order the library's shuffle picks, in groups
    of at most the batch size. *)
Theorem C4_data_modules_two_plain_loaders (x y : Tensor.t) (batch_size : Z)
    (self : DataModule.t) (cifar_batch_size : Z) :
  DataModule.init x y batch_size = Ok self ->
  (@train_dataloader_hook _ _ DataModule.hooks = Some DataModule.train_dataloader /\
   @val_dataloader_hook _ _ DataModule.hooks = Some DataModule.val_dataloader /\
   @test_dataloader_hook _ _ DataModule.hooks = None /\
   @predict_dataloader_hook _ _ DataModule.hooks = None) /\
  (@train_dataloader_hook _ _ DataModuleCIFAR10.hooks = Some DataModuleCIFAR10.train_dataloader /\
   @val_dataloader_hook _ _ DataModuleCIFAR10.hooks = Some DataModuleCIFAR10.val_dataloader /\
   @test_dataloader_hook _ _ DataModuleCIFAR10.hooks = None /\
   @predict_dataloader_hook _ _ DataModuleCIFAR10.hooks = None) /\
  (tensors (DataModule.train_dataset self) = [x; y] /\
   tensors (DataModule.val_dataset self) = [x; y] /\
   DataModule.batch_size self = batch_size) /\
  DataModule.train_dataloader self
  = (if (len (DataModule.train_dataset self) =? 0)%nat
     then Raise (ValueError "num_samples should be a positive integer value")
     else if (batch_size <=? 0)%Z
     then Raise (ValueError "batch_size should be a positive integer value")
     else Ok (mkDataLoader (DataModule.train_dataset self) (Some batch_size)
                           (Some true) None None None None None)) /\
  DataModule.val_dataloader self
  = (if (batch_size <=? 0)%Z
     then Raise (ValueError "batch_size should be a positive integer value")
     else Ok (mkDataLoader (DataModule.val_dataset self) (Some batch_size)
                           (Some false) None None None None None)) /\
  (let cifar := DataModuleCIFAR10.init cifar_batch_size in
   DataModuleCIFAR10.train_dataloader cifar
   = (if (cifar_batch_size <=? 0)%Z
      then Raise (ValueError "batch_size should be a positive integer value")
      else Ok (mkDataLoader (DataModuleCIFAR10.train_dataset cifar) (Some cifar_batch_size)
                            (Some true) (Some 4%nat) None None None None)) /\
   DataModuleCIFAR10.val_dataloader cifar
   = (if (cifar_batch_size <=? 0)%Z
      then Raise (ValueError "batch_size should be a positive integer value")
      else Ok (mkDataLoader (DataModuleCIFAR10.val_dataset cifar) (Some cifar_batch_size)
                            (Some false) (Some 4%nat) None None None None))) /\
  (forall perm : list nat,
      (0 < batch_size)%Z ->
      (0 < len (DataModule.train_dataset self))%nat ->
      Permutation perm (seq 0 (len (DataModule.train_dataset self))) ->
      exists train val train_served val_served,
        DataModule.train_dataloader self = Ok train /\
        DataModule.val_dataloader self = Ok val /\
        iterate train perm = Ok train_served /\
        iterate val perm = Ok val_served /\
        concat train_served = map (getitem (DataModule.train_dataset self)) perm /\
        concat val_served = samples (DataModule.val_dataset self) /\
        Forall (fun grp => (0 < length grp <= Z.to_nat batch_size)%nat)
               (train_served ++ val_served)).
Proof.
  intros Hinit. apply DataModule_init_Ok in Hinit. subst self.
  cbn [DataModule.train_dataset DataModule.val_dataset DataModule.batch_size tensors].
  split; [repeat split|]. split; [repeat split|]. split; [repeat split|].
  unfold DataModule.train_dataloader, DataModule.val_dataloader.
  cbn [DataModule.train_dataset DataModule.val_dataset DataModule.batch_size].
  rewrite !DataLoader_init_plain, N_of_nat_eqb_0. cbn [andb].
  split; [reflexivity|]. split; [reflexivity|]. split.
  { cbv zeta. unfold DataModuleCIFAR10.train_dataloader, DataModuleCIFAR10.val_dataloader.
    rewrite !DataLoader_init_plain. split; reflexivity. }
  intros perm Hb Hn Hperm.
  assert (Hlen : (length perm
                  <= len (mkTensorDataset [x; y]))%nat).
  { apply Permutation_length in Hperm. rewrite length_seq in Hperm. lia. }
  destruct (iterate_shuffled (mkTensorDataset [x; y]) batch_size None perm Hb Hn Hlen)
    as (ts & Hts & Htc & Htf).
  destruct (iterate_in_order (mkTensorDataset [x; y]) batch_size None perm Hb)
    as (vs & Hvs & Hvc & Hvf).
  destruct (len (mkTensorDataset [x; y]) =? 0)%nat eqn:En;
    [apply Nat.eqb_eq in En; lia|].
  destruct (batch_size <=? 0)%Z eqn:Eb; [apply Z.leb_le in Eb; lia|].
  eexists _, _, ts, vs.
  split; [reflexivity|]. split; [reflexivity|].
  split; [exact Hts|]. split; [exact Hvs|]. split; [exact Htc|]. split; [exact Hvc|].
  apply Forall_app. split; assumption.
Qed.

Lemma C4_data_modules_two_plain_loaders_witness :
  DataModule.init small_x small_y 2 = Ok small_data_module /\
  DataModule.val_dataloader small_data_module
  = Ok (mkDataLoader (DataModule.val_dataset small_data_module) (Some 2%Z)
                     (Some false) None None None None None).
Proof.
  split; [reflexivity|].
  exact (proj1 (proj2 (proj2 (proj2 (proj2
    (C4_data_modules_two_plain_loaders small_x small_y 2 small_data_module 512
       eq_refl)))))).
Defined.

(** ** Validation on the training data *)

Lemma TensorDataset_init_pair (n : nat) (xs ys : list Q) :
  TensorDataset_init [Tensor.mk [n; 1%nat] xs; Tensor.mk [n; 1%nat] ys]
  = Ok (mkTensorDataset [Tensor.mk [n; 1%nat] xs; Tensor.mk [n; 1%nat] ys]).
Proof.
  unfold TensorDataset_init. cbn. now rewrite Nat.eqb_refl.
Qed.

(** C9.  In the regression demo the validation data is the training data:
    the native validation loader and the data module's [val_dataset] are built
    from the same pair [(x, y)] as the training side, and every sample the
    validation loaders serve (all 500 of them, in order) is a sample of the
    training data set. *)
Theorem C9_validation_is_training_data (g : Generator) :
  exists x y g',
    prepare_dataset g = Ok (x, y, g') /\
    (exists train val,
        native_train_dataloader x y = Ok train /\
        native_val_dataloader x y = Ok val /\
        tensors (dataset train) = [x; y] /\
        dataset val = dataset train /\
        forall perm, exists served,
          iterate val perm = Ok served /\
          concat served = samples (dataset train) /\
          forall grp s, In grp served -> In s grp -> In s (samples (dataset train))) /\
    (exists dm val,
        DataModule.init x y 16 = Ok dm /\
        tensors (DataModule.train_dataset dm) = [x; y] /\
        DataModule.val_dataset dm = DataModule.train_dataset dm /\
        length (samples (DataModule.train_dataset dm)) = 500%nat /\
        DataModule.val_dataloader dm = Ok val /\
        forall perm, exists served,
          iterate val perm = Ok served /\
          concat served = samples (DataModule.train_dataset dm) /\
          forall grp s, In grp served -> In s grp ->
                        In s (samples (DataModule.train_dataset dm))).
Proof.
  pose proof (prepare_dataset_eq g) as Heq. cbv zeta in Heq.
  eexists _, _, _. split; [exact Heq|].
  split.
  - unfold native_train_dataloader, native_val_dataloader.
    rewrite TensorDataset_init_pair. cbn [rbind].
    rewrite !DataLoader_init_plain, N_of_nat_eqb_0.
    eexists _, _. split; [reflexivity|]. split; [reflexivity|].
    cbn [dataset tensors]. split; [reflexivity|]. split; [reflexivity|].
    intros perm.
    match goal with
    | |- context [mkDataLoader ?d _ _ _ _ _ _ _] =>
        destruct (iterate_in_order d 16 None perm ltac:(lia))
          as (served & Hserved & Hconcat & _)
    end.
    exists served. split; [exact Hserved|]. split; [exact Hconcat|].
    intros grp s Hgrp Hs. rewrite <- Hconcat. apply in_concat. eauto.
  - unfold DataModule.init. rewrite TensorDataset_init_pair. cbn [rbind].
    eexists _, _. split; [reflexivity|].
    cbn [DataModule.train_dataset DataModule.val_dataset tensors].
    split; [reflexivity|]. split; [reflexivity|].
    split; [unfold samples; now rewrite length_map, length_seq|].
    unfold DataModule.val_dataloader.
    cbn [DataModule.train_dataset DataModule.val_dataset DataModule.batch_size].
    rewrite DataLoader_init_plain.
    split; [reflexivity|].
    intros perm.
    match goal with
    | |- context [mkDataLoader ?d _ _ _ _ _ _ _] =>
        destruct (iterate_in_order d 16 None perm ltac:(lia))
          as (served & Hserved & Hconcat & _)
    end.
    exists served. split; [exact Hserved|]. split; [exact Hconcat|].
    intros grp s Hgrp Hs. rewrite <- Hconcat. apply in_concat. eauto.
Qed.

(** ** The hyperparameter sampler *)

Lemma generate_hyperparameters_eq (g : Generator) :
  generate_hyperparameters g
  = ({[ "optimizer" :=
          {[ "lr" := fst (uniform (1 # 10000000) (1 # 100000) g);
             "weight_decay" := fst (uniform (1 # 100) (1 # 10) (advance 1 g)) ]};
        "scheduler" :=
          {[ "step_size" := fst (uniform 5 10 (advance 2 g));
             "gamma" := fst (uniform (1 # 10) (1 # 2) (advance 3 g)) ]} ]},
     advance 4 g).
Proof. reflexivity. Qed.

Lemma uniform_value (low high : Q) (g : Generator) (i : nat) :
  fst (uniform low high (advance i g))
  = (low + (high - low) * draws g (i + cursor g))%Q.
Proof. reflexivity. Qed.

Lemma affine_in_range (low high u : Q) :
  (low <= high)%Q -> (0 <= u)%Q /\ (u < 1)%Q ->
  (low <= low + (high - low) * u)%Q /\ (low + (high - low) * u <= high)%Q.
Proof.
  intros Hle [H0 H1].
  assert (0 <= (high - low) * u)%Q by (apply Qmult_le_0_compat; lra).
  assert ((high - low) * u <= (high - low) * 1)%Q.
  { rewrite !(Qmult_comm (high - low)). apply Qmult_le_compat_r; lra. }
  lra.
Qed.

Lemma uniform_in_range (low high : Q) (g : Generator) :
  unit_draws g -> (low <= high)%Q ->
  (low <= fst (uniform low high g))%Q /\ (fst (uniform low high g) <= high)%Q.
Proof. intros Hg Hle. apply affine_in_range; [exact Hle|apply Hg]. Qed.

Lemma search_space_ranges :
  Forall (fun '(_, value) => Forall (fun '(_, (low, high)) => (low <= high)%Q) value)
         search_space.
Proof. repeat constructor; discriminate. Qed.

(** Looking a key up in a dictionary literal. *)
Ltac lookup_literal :=
  repeat first [ rewrite lookup_insert_eq
               | rewrite lookup_insert_ne by done
               | rewrite lookup_singleton_eq ];
  reflexivity.

(** C1.  [generate_hyperparameters] returns a dictionary with exactly the keys
    of [search_space], each holding exactly the sub-keys of its entry, and
    every leaf is one uniform draw within the [low, high] range of that
    parameter: leaf number [i] (in the order of [search_space]) is
    [low + (high - low) * u] for draw number [i] of the generator, four fresh
    draws per call and nothing else. *)
Theorem C1_generate_hyperparameters (g : Generator) :
  unit_draws g ->
  let h := fst (generate_hyperparameters g) in
  dom h = list_to_set (search_space.*1) /\
  (forall key value, In (key, value) search_space ->
     exists sub,
       h !! key = Some sub /\
       dom sub = list_to_set (value.*1) /\
       forall subkey low high, In (subkey, (low, high)) value ->
         exists v, sub !! subkey = Some v /\ (low <= v)%Q /\ (v <= high)%Q) /\
  h = {[ "optimizer" :=
           {[ "lr" := fst (uniform (1 # 10000000) (1 # 100000) g);
              "weight_decay" := fst (uniform (1 # 100) (1 # 10) (advance 1 g)) ]};
         "scheduler" :=
           {[ "step_size" := fst (uniform 5 10 (advance 2 g));
              "gamma" := fst (uniform (1 # 10) (1 # 2) (advance 3 g)) ]} ]} /\
  snd (generate_hyperparameters g) = advance 4 g.
Proof.
  intros Hg h. subst h. rewrite generate_hyperparameters_eq. cbn [fst snd].
  split; [reflexivity|]. split; [|split; reflexivity].
  intros key value Hin. cbn in Hin.
  destruct Hin as [E|[E|[]]]; injection E as <- <-.
  - eexists. split; [reflexivity|]. split; [reflexivity|].
    intros subkey low high Hin. cbn in Hin.
    destruct Hin as [E|[E|[]]]; injection E as <- <- <-;
      (eexists; split; [lookup_literal|];
       apply affine_in_range; [discriminate|apply Hg]).
  - eexists. split; [reflexivity|]. split; [reflexivity|].
    intros subkey low high Hin. cbn in Hin.
    destruct Hin as [E|[E|[]]]; injection E as <- <- <-;
      (eexists; split; [lookup_literal|];
       apply affine_in_range; [discriminate|apply Hg]).
Qed.


Lemma half_draws_unit : unit_draws half_draws.
Proof. intros n. split; discriminate || reflexivity. Qed.

Lemma C1_generate_hyperparameters_witness :
  unit_draws half_draws /\
  dom (fst (generate_hyperparameters half_draws)) = list_to_set (search_space.*1).
Proof.
  split; [exact half_draws_unit|].
  exact (proj1 (C1_generate_hyperparameters half_draws half_draws_unit)).
Defined.

Lemma generated_in_search_space (g : Generator) :
  unit_draws g -> in_search_space (fst (generate_hyperparameters g)) = true.
Proof.
  intros Hg. rewrite generate_hyperparameters_eq. cbn [fst].
  unfold in_search_space. apply andb_true_intro. split.
  { apply bool_decide_eq_true_2. reflexivity. }
  unfold search_space. cbn [forallb].
  rewrite lookup_insert_eq, lookup_insert_ne, lookup_singleton_eq by done.
  unfold group_in_range. cbn [forallb].
  rewrite !lookup_insert_eq, !lookup_insert_ne, !lookup_singleton_eq by done.
  rewrite !andb_true_r.
  repeat (apply andb_true_intro; split);
    first [ apply bool_decide_eq_true_2; reflexivity
          | apply Qle_bool_iff;
            first [ refine (proj1 (affine_in_range _ _ _ _ (Hg _)))
                  | refine (proj2 (affine_in_range _ _ _ _ (Hg _))) ];
            discriminate ].
Qed.

(** C7, the claim as stated fails.  "No checkable invariant is definable"
    says that a check which every output of [generate_hyperparameters] passes
    is passed by every dictionary; [in_search_space] is a check that all
    outputs pass and the empty dictionary does not. *)
Lemma C7_no_invariant_counterexample :
  ~ (forall check : Hyperparameters -> bool,
        (forall g, unit_draws g -> check (fst (generate_hyperparameters g)) = true) ->
        forall h, check h = true).
Proof.
  intros Hclaim.
  specialize (Hclaim in_search_space generated_in_search_space ∅).
  vm_compute in Hclaim. discriminate.
Qed.

(** C7, amended.  The repository's own [generate_hyperparameters] has a
    checkable boundary condition: every dictionary it returns passes
    [in_search_space] (the keys and sub-keys of [search_space], every value
    within its range), and the check is not vacuous: the fixed dictionary of
    the callbacks cell, whose [lr] is 1.0, fails it, and the dictionary of
    the first training cell passes it. *)
Theorem C7_sampler_boundary_condition (g : Generator) :
  unit_draws g ->
  in_search_space (fst (generate_hyperparameters g)) = true /\
  in_search_space callbacks_hyperparameters = false /\
  in_search_space first_hyperparameters = true.
Proof.
  intros Hg. split; [now apply generated_in_search_space|].
  split; vm_compute; reflexivity.
Qed.

Lemma C7_sampler_boundary_condition_witness :
  unit_draws half_draws /\
  in_search_space (fst (generate_hyperparameters half_draws)) = true.
Proof.
  split; [exact half_draws_unit|].
  exact (proj1 (C7_sampler_boundary_condition half_draws half_draws_unit)).
Defined.

(** ** The Slack environment variables and the client *)

(** C6.  The messaging client is configured from exactly three environment
    variables (application token, bot token, default channel identifier)
    and nothing validates them: the cell sets the three to the empty string
    and leaves every other variable alone, the client built from the result
    holds the three empty strings, the client depends on no other variable,
    and any three values at all are taken as they are. *)
Theorem C6_slack_environment_unvalidated (environ : gmap string string) :
  Forall (fun k => set_slack_environment environ !! k = Some "") slack_variables /\
  (forall k, ~ In k slack_variables -> set_slack_environment environ !! k = environ !! k) /\
  SlackClient.init (set_slack_environment environ)
  = SlackClient.mk (Some "") (Some "") (Some "") /\
  (forall e1 e2 : gmap string string,
      Forall (fun k => e1 !! k = e2 !! k) slack_variables ->
      SlackClient.init e1 = SlackClient.init e2) /\
  (forall app bot channel : string,
      SlackClient.init
        (<["SLACK_DEFAULT_CHANNEL_ID" := channel]>
           (<["SLACK_BOT_TOKEN" := bot]> (<["SLACK_APP_TOKEN" := app]> environ)))
      = SlackClient.mk (Some app) (Some bot) (Some channel)).
Proof.
  assert (Hset : forall app bot channel : string,
             SlackClient.init
               (<["SLACK_DEFAULT_CHANNEL_ID" := channel]>
                  (<["SLACK_BOT_TOKEN" := bot]> (<["SLACK_APP_TOKEN" := app]> environ)))
             = SlackClient.mk (Some app) (Some bot) (Some channel)).
  { intros app bot channel. unfold SlackClient.init. f_equal.
    - rewrite !lookup_insert_ne by done. apply lookup_insert_eq.
    - rewrite lookup_insert_ne by done. apply lookup_insert_eq.
    - apply lookup_insert_eq. }
  split; [|split; [|split; [|split]]].
  - unfold set_slack_environment, slack_variables.
    repeat constructor.
    + rewrite !lookup_insert_ne by done. apply lookup_insert_eq.
    + rewrite lookup_insert_ne by done. apply lookup_insert_eq.
    + apply lookup_insert_eq.
  - intros k Hk. unfold set_slack_environment.
    rewrite !lookup_insert_ne; [reflexivity| | |];
      intros <-; apply Hk; cbn; auto.
  - apply Hset.
  - intros e1 e2 Hagree. unfold slack_variables in Hagree.
    inversion Hagree as [|? ? H1 Hagree1]; subst.
    inversion Hagree1 as [|? ? H2 Hagree2]; subst.
    inversion Hagree2 as [|? ? H3 _]; subst.
    unfold SlackClient.init. now rewrite H1, H2, H3.
  - exact Hset.
Qed.

(** ** Checkpoint names and the data directory *)

(** C3, the claim as stated fails.  Were every checkpoint pattern and the
    data directory library-defined, no trainer would work with a checkpoint
    callback that was given a [filename], and [CIFAR10] would be given no
    [root]; the built-in callbacks run is given a file-name pattern, and both
    data sets are given [DATAPATH]. *)
Lemma C3_library_defined_counterexample :
  ~ (forall environ t mc,
        In t (notebook_trainers environ) ->
        In mc (configured_checkpoints t) ->
        origin (filename mc) = LibraryDefault) /\
  ~ (origin (root (DataModuleCIFAR10.train_dataset data_module)) = LibraryDefault /\
     origin (root (DataModuleCIFAR10.val_dataset data_module)) = LibraryDefault).
Proof.
  split.
  - intros Hclaim.
    specialize (Hclaim ∅ builtin_trainer
                  (mkModelCheckpoint (Some "./models")
                     (Some "resnet18_cifar10_best_{epoch:02d}")
                     (Some "val_loss") (Some 1%nat) (Some "min") (Some true))).
    cbn in Hclaim. specialize (Hclaim ltac:(auto) ltac:(auto)). discriminate.
  - intros [H _]. cbn in H. discriminate.
Qed.

(** C3, amended.  The checkpoint file-naming pattern and directory are
    library-defined for every run that is given no [ModelCheckpoint] (the
    regression run, the first run, the search runs and the Slack run work
    with the checkpoint callback the library adds, whose [filename] and
    [dirpath] are its defaults); for the built-in callbacks run the notebook
    supplies them, [filename="resnet18_cifar10_best_{epoch:02d}"] and
    [dirpath="./models"].  The data directory is supplied by the notebook:
    for every batch size both CIFAR10 data sets are given
    [root=DATAPATH="./data"]. *)
Theorem C3_checkpoint_and_data_paths (environ : gmap string string) (batch_size : Z) :
  map configured_checkpoints (notebook_trainers environ)
  = [ [default_model_checkpoint];
      [default_model_checkpoint];
      [default_model_checkpoint];
      [mkModelCheckpoint (Some "./models") (Some "resnet18_cifar10_best_{epoch:02d}")
                         (Some "val_loss") (Some 1%nat) (Some "min") (Some true)];
      [default_model_checkpoint] ] /\
  Forall (fun t =>
            Forall (fun mc =>
                      match checkpoint_callbacks (callbacks t) with
                      | [] => origin (filename mc) = LibraryDefault /\
                              origin (dirpath mc) = LibraryDefault
                      | _ :: _ => origin (filename mc) = SuppliedByNotebook /\
                                  origin (dirpath mc) = SuppliedByNotebook
                      end)
                   (configured_checkpoints t))
         (notebook_trainers environ) /\
  DATAPATH = "./data" /\
  root (DataModuleCIFAR10.train_dataset (DataModuleCIFAR10.init batch_size)) = Some DATAPATH /\
  root (DataModuleCIFAR10.val_dataset (DataModuleCIFAR10.init batch_size)) = Some DATAPATH /\
  origin (root (DataModuleCIFAR10.train_dataset (DataModuleCIFAR10.init batch_size)))
  = SuppliedByNotebook /\
  origin (root (DataModuleCIFAR10.val_dataset (DataModuleCIFAR10.init batch_size)))
  = SuppliedByNotebook.
Proof.
  split; [reflexivity|]. split; [|repeat split].
  unfold notebook_trainers.
  repeat (constructor; [constructor; [split; reflexivity|constructor]|]).
  constructor.
Qed.
(** ** The Slack callback *)

Section SlackCallback.

Variable phase : nat.
Variable format_status : nat -> Metric -> string.

Lemma on_cadence_periodic (a : MonitorTrainingOnSlackArgs) (epoch : nat) :
  (0 < log_every_n_epoch a)%nat ->
  on_cadence phase a (epoch + log_every_n_epoch a) = on_cadence phase a epoch.
Proof.
  intros Hn. unfold on_cadence.
  replace (epoch + log_every_n_epoch a + phase)%nat
    with (epoch + phase + 1 * log_every_n_epoch a)%nat by lia.
  rewrite Nat.Div0.mod_add. reflexivity.
Qed.

Lemma on_cadence_multiple (a : MonitorTrainingOnSlackArgs) (epoch : nat) :
  (0 < log_every_n_epoch a)%nat ->
  on_cadence phase a epoch = true <->
  exists q, (epoch + phase = log_every_n_epoch a * q)%nat.
Proof.
  intros Hn. unfold on_cadence. rewrite Nat.eqb_eq. split.
  - intros Hmod. exists ((epoch + phase) / log_every_n_epoch a)%nat.
    pose proof (Nat.div_mod_eq (epoch + phase) (log_every_n_epoch a)). lia.
  - intros [q Hq]. symmetry. apply (Nat.mod_unique _ _ q); lia.
Qed.

(** Among any [log_every_n_epoch] consecutive epochs exactly one is on the
    cadence. *)
Lemma on_cadence_once_per_period (a : MonitorTrainingOnSlackArgs) (epoch : nat) :
  (0 < log_every_n_epoch a)%nat ->
  exists e,
    (epoch <= e < epoch + log_every_n_epoch a)%nat /\
    on_cadence phase a e = true /\
    forall e', (epoch <= e' < epoch + log_every_n_epoch a)%nat ->
               on_cadence phase a e' = true -> e' = e.
Proof.
  intros Hn. set (n := log_every_n_epoch a) in *.
  pose proof (Nat.div_mod_eq (epoch + phase) n) as Hdiv.
  pose proof (Nat.mod_upper_bound (epoch + phase) n ltac:(lia)) as Hlt.
  set (q := ((epoch + phase) / n)%nat) in *.
  set (r := ((epoch + phase) mod n)%nat) in *.
  assert (Hfirst : exists e, (epoch <= e < epoch + n)%nat /\
                             exists q', (e + phase = n * q')%nat).
  { destruct (decide (r = 0%nat)) as [Hr|Hr].
    - exists epoch. split; [lia|]. exists q. lia.
    - exists (epoch + (n - r))%nat. split; [lia|]. exists (S q). lia. }
  destruct Hfirst as (e & He & q1 & Hq1).
  exists e. split; [exact He|]. split.
  - apply on_cadence_multiple; [exact Hn|]. exists q1. exact Hq1.
  - intros e' He' Hon. apply on_cadence_multiple in Hon; [|exact Hn].
    destruct Hon as [q2 Hq2]. fold n in Hq2.
    assert (q1 = q2) by nia. subst q2. lia.
Qed.

Lemma slack_on_epoch_end_on (a : MonitorTrainingOnSlackArgs) (epoch : nat) (loss : Metric)
    (delivered stop : bool) :
  on_cadence phase a epoch = true ->
  slack_on_epoch_end phase format_status a epoch loss delivered stop
  = ([ PostMessage (SlackClient.default_channel_id (slack_client a))
                   (format_status epoch loss);
       CheckStopFlag (SlackClient.default_channel_id (slack_client a)) ], stop).
Proof. intros Hc. unfold slack_on_epoch_end. now rewrite Hc. Qed.

Lemma slack_on_epoch_end_off (a : MonitorTrainingOnSlackArgs) (epoch : nat) (loss : Metric)
    (delivered stop : bool) :
  on_cadence phase a epoch = false ->
  slack_on_epoch_end phase format_status a epoch loss delivered stop = ([], false).
Proof. intros Hc. unfold slack_on_epoch_end. now rewrite Hc. Qed.

(** A run whose only callback is the Slack callback: the trace is, epoch by
    epoch, what the callback emits, and nothing of the loop state but
    [should_stop] and the trace changes. *)
Lemma fit_loop_slack_trace (a : MonitorTrainingOnSlackArgs) (out : Outside)
    (remaining epoch : nat) (st : LoopState) :
  let r := fit_loop phase format_status [MonitorTrainingOnSlack a] out remaining epoch st in
  slack_trace (snd r)
  = (slack_trace st
     ++ flat_map (fun e => fst (slack_on_epoch_end phase format_status a e (val_loss out e)
                                  (post_delivered out e) (stop_requested out e)))
                 (seq epoch (fst r - epoch)))%list /\
  best_score (snd r) = best_score st /\
  wait_count (snd r) = wait_count st /\
  (epoch <= fst r <= epoch + remaining)%nat.
Proof.
  revert epoch st. induction remaining as [|remaining IH]; intros epoch st r.
  - subst r. cbn. rewrite Nat.sub_diag. cbn. rewrite app_nil_r.
    repeat split; lia.
  - subst r. cbn [fit_loop fold_left on_epoch_end].
    destruct (slack_on_epoch_end phase format_status a epoch (val_loss out epoch)
                (post_delivered out epoch) (stop_requested out epoch))
      as [calls stop] eqn:Hcalls.
    cbn [should_stop].
    destruct (should_stop st || stop) eqn:Hstop.
    + cbn [fst snd slack_trace best_score wait_count].
      replace (S epoch - epoch)%nat with 1%nat by lia.
      cbn [seq flat_map]. rewrite Hcalls. cbn [fst]. rewrite app_nil_r.
      repeat split; lia.
    + specialize (IH (S epoch)
                     (mkLoopState (best_score st) (wait_count st) false
                                  (slack_trace st ++ calls))).
      cbv zeta in IH. destruct IH as (Htrace & Hbest & Hwait & Hle).
      rewrite Htrace, Hbest, Hwait. cbn [slack_trace best_score wait_count].
      split; [|repeat split; lia].
      replace (fst (fit_loop phase format_status [MonitorTrainingOnSlack a] out remaining
                      (S epoch)
                      (mkLoopState (best_score st) (wait_count st) false
                                   (slack_trace st ++ calls))) - epoch)%nat
        with (S (fst (fit_loop phase format_status [MonitorTrainingOnSlack a] out remaining
                        (S epoch)
                        (mkLoopState (best_score st) (wait_count st) false
                                     (slack_trace st ++ calls))) - S epoch))%nat by lia.
      cbn [seq flat_map]. rewrite Hcalls. cbn [fst].
      now rewrite <- app_assoc.
Qed.

(** Such a run ends early only on an epoch that is on the cadence and on
    which a stop is requested. *)
Lemma fit_loop_slack_stop (a : MonitorTrainingOnSlackArgs) (out : Outside)
    (remaining epoch : nat) (st : LoopState) :
  should_stop st = false ->
  (fst (fit_loop phase format_status [MonitorTrainingOnSlack a] out remaining epoch st)
   < epoch + remaining)%nat ->
  (epoch < fst (fit_loop phase format_status [MonitorTrainingOnSlack a] out
                  remaining epoch st))%nat /\
  on_cadence phase a
    (fst (fit_loop phase format_status [MonitorTrainingOnSlack a] out
            remaining epoch st) - 1) = true /\
  stop_requested out
    (fst (fit_loop phase format_status [MonitorTrainingOnSlack a] out
            remaining epoch st) - 1) = true.
Proof.
  revert epoch st. induction remaining as [|remaining IH]; intros epoch st Hst Hn.
  - cbn in Hn. lia.
  - cbn [fit_loop fold_left on_epoch_end] in *.
    unfold slack_on_epoch_end in *.
    destruct (on_cadence phase a epoch) eqn:Hc; cbn [should_stop] in *;
      rewrite Hst in *; cbn [orb] in *.
    + destruct (stop_requested out epoch) eqn:Hs.
      * cbn [fst] in *. replace (S epoch - 1)%nat with epoch by lia. auto with arith.
      * match type of Hn with
        | context [fit_loop _ _ _ _ _ _ ?st'] =>
            destruct (IH (S epoch) st' eq_refl ltac:(lia)) as (Hlt & Hon & Hreq)
        end.
        split; [lia|]. auto.
    + match type of Hn with
      | context [fit_loop _ _ _ _ _ _ ?st'] =>
          destruct (IH (S epoch) st' eq_refl ltac:(lia)) as (Hlt & Hon & Hreq)
      end.
      split; [lia|]. auto.
Qed.

End SlackCallback.

(** C5.  The Slack callback (modelled from the spec), for a positive period.
    The cadence is one epoch in every [log_every_n_epoch]: among any that
    many consecutive epochs exactly one is on it.  On the cadence one
    invocation makes exactly two calls, the post of the formatted status and
    the check of the remote flag, and requests termination exactly when the
    flag is set; off the cadence it makes no call and requests nothing.
    Whether the post was delivered changes nothing (no retry, no backoff),
    and in a run whose only callback it is, the trace of calls is the
    per-epoch pairs of the epochs on the cadence, in epoch order (no
    deduplication), while the rest of the loop state stays as it was (no
    state of its own). *)
Theorem C5_slack_callback_two_calls (phase : nat) (format_status : nat -> Metric -> string)
    (a : MonitorTrainingOnSlackArgs) (epoch : nat) (loss : Metric) (delivered stop : bool) :
  (0 < log_every_n_epoch a)%nat ->
  (exists e,
      (epoch <= e < epoch + log_every_n_epoch a)%nat /\
      on_cadence phase a e = true /\
      forall e', (epoch <= e' < epoch + log_every_n_epoch a)%nat ->
                 on_cadence phase a e' = true -> e' = e) /\
  (on_cadence phase a epoch = true ->
   slack_on_epoch_end phase format_status a epoch loss delivered stop
   = ([ PostMessage (SlackClient.default_channel_id (slack_client a))
                    (format_status epoch loss);
        CheckStopFlag (SlackClient.default_channel_id (slack_client a)) ], stop)) /\
  (on_cadence phase a epoch = false ->
   slack_on_epoch_end phase format_status a epoch loss delivered stop = ([], false)) /\
  slack_on_epoch_end phase format_status a epoch loss (negb delivered) stop
  = slack_on_epoch_end phase format_status a epoch loss delivered stop /\
  (forall (epochs steps : nat) (check : option nat) (out : Outside),
      let r := fit phase format_status
                   (mkTrainer epochs steps check [MonitorTrainingOnSlack a]) out in
      slack_trace (snd r)
      = flat_map (fun e =>
                    if on_cadence phase a e
                    then [ PostMessage (SlackClient.default_channel_id (slack_client a))
                                       (format_status e (val_loss out e));
                           CheckStopFlag (SlackClient.default_channel_id (slack_client a)) ]
                    else [])
                 (seq 0 (fst r)) /\
      best_score (snd r) = None /\
      wait_count (snd r) = 0%nat).
Proof.
  intros Hn.
  split; [now apply on_cadence_once_per_period|].
  split; [apply slack_on_epoch_end_on|].
  split; [apply slack_on_epoch_end_off|].
  split; [reflexivity|].
  intros epochs steps check out r. subst r. unfold fit.
  cbn [callbacks max_epochs].
  destruct (fit_loop_slack_trace phase format_status a out epochs 0 initial_state)
    as (Htrace & Hbest & Hwait & _).
  rewrite Htrace, Hbest, Hwait. rewrite Nat.sub_0_r.
  cbn [initial_state slack_trace app best_score wait_count].
  split; [|split; reflexivity].
  apply flat_map_ext. intros e. unfold slack_on_epoch_end.
  now destruct (on_cadence phase a e).
Qed.

Lemma C5_slack_callback_two_calls_witness :
  (0 < log_every_n_epoch every_two_epochs)%nat /\
  exists e,
    (4 <= e < 4 + log_every_n_epoch every_two_epochs)%nat /\
    on_cadence 1 every_two_epochs e = true /\
    forall e', (4 <= e' < 4 + log_every_n_epoch every_two_epochs)%nat ->
               on_cadence 1 every_two_epochs e' = true -> e' = e.
Proof.
  split; [cbn; lia|].
  refine (proj1 (C5_slack_callback_two_calls 1 (fun _ _ => "status") every_two_epochs
                   4 NonFinite true false _)).
  cbn; lia.
Defined.

(** ** What can end a run before [max_epochs] *)

Section Stopping.

Variable phase : nat.
Variable format_status : nat -> Metric -> string.
Variable out : Outside.

Lemma fit_loop_step (cbs : list Callback) (remaining epoch : nat) (st : LoopState) :
  fit_loop phase format_status cbs out (S remaining) epoch st
  = if should_stop (fold_left (on_epoch_end phase format_status out epoch) cbs st)
    then (S epoch, fold_left (on_epoch_end phase format_status out epoch) cbs st)
    else fit_loop phase format_status cbs out remaining (S epoch)
           (fold_left (on_epoch_end phase format_status out epoch) cbs st).
Proof. reflexivity. Qed.

(** A loop none of whose epochs sets [should_stop] runs every epoch. *)
Lemma fit_loop_runs_all (cbs : list Callback) (remaining epoch : nat) (st : LoopState) :
  should_stop st = false ->
  (forall e st', (epoch <= e < epoch + remaining)%nat ->
                 should_stop st' = false ->
                 should_stop (fold_left (on_epoch_end phase format_status out e) cbs st')
                 = false) ->
  fst (fit_loop phase format_status cbs out remaining epoch st) = (epoch + remaining)%nat.
Proof.
  revert epoch st. induction remaining as [|remaining IH]; intros epoch st Hst Hquiet.
  - cbn. lia.
  - cbn [fit_loop]. rewrite (Hquiet epoch st) by (assumption || lia).
    rewrite IH; [lia| |].
    + apply Hquiet; [lia|assumption].
    + intros e st' He Hst'. apply Hquiet; [lia|assumption].
Qed.

Lemma no_callbacks_run_all (n steps : nat) (check : option nat) :
  epochs_run phase format_status (mkTrainer n steps check []) out = n.
Proof.
  unfold epochs_run, fit. cbn [callbacks max_epochs].
  rewrite fit_loop_runs_all; [reflexivity|reflexivity|].
  intros e st' _ Hst'. exact Hst'.
Qed.

(** The callbacks of the built-in cell at the end of the first epoch, when
    there is no best score yet, and at the end of a later one. *)
Lemma builtin_first_step (trace : list SlackCall) :
  fold_left (on_epoch_end phase format_status out 0) builtin_callbacks
            (mkLoopState None 0 false trace)
  = match val_loss out 0 with
    | NonFinite => mkLoopState None 0 true trace
    | Finite current => mkLoopState (Some current) 0 false trace
    end.
Proof.
  cbn. unfold early_stopping_on_epoch_end. cbn.
  now destruct (val_loss out 0).
Qed.

Lemma builtin_step (epoch : nat) (previous : Q) (trace : list SlackCall) :
  fold_left (on_epoch_end phase format_status out epoch) builtin_callbacks
            (mkLoopState (Some previous) 0 false trace)
  = match val_loss out epoch with
    | NonFinite => mkLoopState (Some previous) 0 true trace
    | Finite current =>
        if Qle_bool previous current
        then mkLoopState (Some previous) 1 true trace
        else mkLoopState (Some current) 0 false trace
    end.
Proof.
  cbn. unfold early_stopping_on_epoch_end. cbn.
  destruct (val_loss out epoch) as [current|]; [|reflexivity].
  now destruct (Qle_bool previous current).
Qed.

(** After an epoch that improved, the loop carries that epoch's loss as the
    best score and a wait counter of zero.  It goes on as long as each
    epoch's loss is finite and strictly below the one before, and ends early
    on a loss that is not finite or, the patience of one being exhausted, on
    a loss that is not below the one before. *)
Lemma builtin_loop (remaining epoch : nat) (previous : Q) (trace : list SlackCall) :
  (1 <= epoch)%nat ->
  val_loss out (epoch - 1) = Finite previous ->
  (epoch
   <= fst (fit_loop phase format_status builtin_callbacks out remaining epoch
             (mkLoopState (Some previous) 0 false trace))
   <= epoch + remaining)%nat /\
  ((0 < remaining)%nat ->
   (epoch < fst (fit_loop phase format_status builtin_callbacks out remaining epoch
                   (mkLoopState (Some previous) 0 false trace)))%nat) /\
  (forall e, (epoch <= e)%nat ->
     (S e < fst (fit_loop phase format_status builtin_callbacks out remaining epoch
                   (mkLoopState (Some previous) 0 false trace)))%nat ->
     exists before current,
       val_loss out (e - 1) = Finite before /\
       val_loss out e = Finite current /\
       (current < before)%Q) /\
  ((fst (fit_loop phase format_status builtin_callbacks out remaining epoch
           (mkLoopState (Some previous) 0 false trace)) < epoch + remaining)%nat ->
   let r := fit_loop phase format_status builtin_callbacks out remaining epoch
              (mkLoopState (Some previous) 0 false trace) in
   val_loss out (fst r - 1) = NonFinite \/
   (wait_count (snd r) = 1%nat /\
    exists before current,
      val_loss out (fst r - 2) = Finite before /\
      val_loss out (fst r - 1) = Finite current /\
      (before <= current)%Q)).
Proof.
  revert epoch previous.
  induction remaining as [|remaining IH]; intros epoch previous Hepoch Hprev.
  - cbn [fit_loop fst].
    split; [lia|]. split; [lia|]. split; intros; lia.
  - cbn [fit_loop]. rewrite builtin_step.
    destruct (val_loss out epoch) as [current|] eqn:Hcur.
    + destruct (Qle_bool previous current) eqn:Hle; cbn [should_stop fst snd].
      * apply Qle_bool_iff in Hle.
        split; [lia|]. split; [lia|]. split; [intros e He Hlt; lia|].
        intros _. right. cbn [wait_count]. split; [reflexivity|].
        exists previous, current.
        replace (S epoch - 2)%nat with (epoch - 1)%nat by lia.
        replace (S epoch - 1)%nat with epoch by lia. auto.
      * assert (Hlt : (current < previous)%Q).
        { apply Qnot_le_lt. intros H. apply Qle_bool_iff in H. congruence. }
        assert (Hprev' : val_loss out (S epoch - 1) = Finite current).
        { replace (S epoch - 1)%nat with epoch by lia. exact Hcur. }
        destruct (IH (S epoch) current ltac:(lia) Hprev')
          as (Hrange & Hprog & Himproved & Hlast).
        split; [lia|]. split; [lia|]. split.
        -- intros e He Hn. destruct (decide (e = epoch)) as [->|Hne].
           ++ exists previous, current. auto.
           ++ apply Himproved; [lia|exact Hn].
        -- intros Hn. apply Hlast. lia.
    + cbn [should_stop fst snd].
      split; [lia|]. split; [lia|]. split; [intros e He Hlt; lia|].
      intros _. left. replace (S epoch - 1)%nat with epoch by lia. exact Hcur.
Qed.

(** The run of the built-in callbacks cell as a whole. *)
Lemma builtin_run :
  let r := fit phase format_status builtin_trainer out in
  (1 <= fst r <= 10)%nat /\
  (forall e, (S e < fst r)%nat ->
     exists current,
       val_loss out e = Finite current /\
       ((1 <= e)%nat ->
        exists before, val_loss out (e - 1) = Finite before /\ (current < before)%Q)) /\
  ((fst r < 10)%nat ->
   val_loss out (fst r - 1) = NonFinite \/
   ((2 <= fst r)%nat /\
    wait_count (snd r) = 1%nat /\
    exists before current,
      val_loss out (fst r - 2) = Finite before /\
      val_loss out (fst r - 1) = Finite current /\
      (before <= current)%Q)).
Proof.
  cbv zeta. unfold fit, builtin_trainer. cbn [callbacks max_epochs].
  rewrite (fit_loop_step _ 9). unfold initial_state. rewrite builtin_first_step.
  destruct (val_loss out 0) as [first|] eqn:Hfirst; cbn [should_stop fst snd].
  - assert (Hprev : val_loss out (1 - 1) = Finite first) by exact Hfirst.
    destruct (builtin_loop 9 1 first [] ltac:(lia) Hprev)
      as (Hrange & Hprog & Himproved & Hlast).
    specialize (Hprog ltac:(lia)).
    split; [lia|]. split.
    + intros e He. destruct e as [|e].
      * exists first. split; [exact Hfirst|]. intros H. lia.
      * destruct (Himproved (S e) ltac:(lia) He) as (before & current & Hb & Hc & Hlt).
        exists current. split; [exact Hc|]. intros _. eauto.
    + intros Hn. destruct (Hlast ltac:(lia)) as [Hnon|(Hwait & Hstall)].
      * left. exact Hnon.
      * right. split; [lia|]. split; assumption.
  - split; [lia|]. split; [intros e He; lia|].
    intros _. left. exact Hfirst.
Qed.

End Stopping.

(** C2, the claim as stated fails.  Were the patience of [EarlyStopping] the
    only thing that can end a run before [max_epochs], every run that ends
    early would have that callback; the Slack run has none, and ends after
    one epoch of fifty when a stop is requested through Slack. *)
Lemma C2_only_patience_counterexample :
  ~ (forall (phase : nat) (format_status : nat -> Metric -> string)
            (environ : gmap string string) (out : Outside) (t : Trainer),
        In t (notebook_trainers environ) ->
        (epochs_run phase format_status t out < max_epochs t)%nat ->
        has_early_stopping (callbacks t) = true).
Proof.
  intros Hclaim.
  specialize (Hclaim 0%nat (fun _ _ => "status") ∅
                     stopped_at_once (slack_trainer ∅)).
  assert (Hin : In (slack_trainer ∅) (notebook_trainers ∅)) by (cbn; auto 6).
  specialize (Hclaim Hin). cbn in Hclaim.
  specialize (Hclaim ltac:(lia)). discriminate.
Qed.

(** C2, amended.  A training run configured by the notebooks ends before
    [max_epochs] only through one of two mechanisms the repository supplies.
    One is the patience passed to the built-in [EarlyStopping] callback: the
    wait counter has reached the patience, the loss of the last epoch not
    being below that of the epoch before (the library's own stop on a loss
    that is not finite, which the same callback makes by default, aside).
    The other is the repository's Slack callback: the last epoch is on its
    cadence and a stop was requested through Slack on it.  The runs with
    neither callback never end early. *)
Theorem C2_early_stop_mechanisms (phase : nat) (format_status : nat -> Metric -> string)
    (environ : gmap string string) (out : Outside) (t : Trainer) :
  In t (notebook_trainers environ) ->
  (epochs_run phase format_status t out < max_epochs t)%nat ->
  let last := (epochs_run phase format_status t out - 1)%nat in
  (exists a,
      In (EarlyStopping a) (callbacks t) /\
      (val_loss out last = NonFinite \/
       (wait_count (snd (fit phase format_status t out)) = es_patience a /\
        (1 <= last)%nat /\
        exists before current,
          val_loss out (last - 1) = Finite before /\
          val_loss out last = Finite current /\
          (before <= current)%Q))) \/
  (exists a,
      In (MonitorTrainingOnSlack a) (callbacks t) /\
      on_cadence phase a last = true /\
      stop_requested out last = true).
Proof.
  intros Hin Hearly last. subst last.
  unfold notebook_trainers in Hin. cbn [In] in Hin.
  destruct Hin as [<-|[<-|[<-|[<-|[<-|[]]]]]].
  - unfold regression_trainer in Hearly. rewrite no_callbacks_run_all in Hearly.
    cbn in Hearly. lia.
  - unfold first_trainer in Hearly. rewrite no_callbacks_run_all in Hearly.
    cbn in Hearly. lia.
  - unfold search_trainer in Hearly. rewrite no_callbacks_run_all in Hearly.
    cbn in Hearly. lia.
  - left. eexists. split; [left; reflexivity|].
    destruct (builtin_run phase format_status out) as (Hrange & _ & Hlast).
    unfold epochs_run in *. change (max_epochs builtin_trainer) with 10%nat in Hearly.
    destruct (Hlast Hearly) as [Hnon|(H2 & Hwait & before & current & Hb & Hc & Hle)].
    + left. exact Hnon.
    + right. cbn [es_patience]. split; [exact Hwait|]. split; [lia|].
      exists before, current.
      replace (fst (fit phase format_status builtin_trainer out) - 1 - 1)%nat
        with (fst (fit phase format_status builtin_trainer out) - 2)%nat by lia.
      auto.
  - right. unfold slack_trainer, slack_callbacks in *.
    eexists. split; [left; reflexivity|].
    unfold epochs_run, fit in *. cbn [callbacks max_epochs] in *.
    destruct (fit_loop_slack_stop phase format_status _ out 50 0 initial_state
                eq_refl Hearly) as (_ & Hon & Hreq).
    split; assumption.
Qed.

Lemma C2_early_stop_mechanisms_witness :
  In (slack_trainer ∅) (notebook_trainers ∅) /\
  (epochs_run 0 (fun _ _ => "status") (slack_trainer ∅) stopped_at_once
   < max_epochs (slack_trainer ∅))%nat /\
  exists a,
    In (MonitorTrainingOnSlack a) (callbacks (slack_trainer ∅)) /\
    on_cadence 0 a 0 = true /\
    stop_requested stopped_at_once 0 = true.
Proof.
  assert (Hin : In (slack_trainer ∅) (notebook_trainers ∅)) by (cbn; auto 6).
  assert (Hearly : (epochs_run 0 (fun _ _ => "status") (slack_trainer ∅) stopped_at_once
                    < max_epochs (slack_trainer ∅))%nat) by (cbn; lia).
  split; [exact Hin|]. split; [exact Hearly|].
  destruct (C2_early_stop_mechanisms 0 (fun _ _ => "status") ∅ stopped_at_once
              (slack_trainer ∅) Hin Hearly) as [(a & Ha & _)|Hslack].
  - cbn in Ha. destruct Ha as [Ha|[]]. discriminate.
  - exact Hslack.
Defined.

(** Three runs of the built-in callbacks cell: with a loss that never
    improves the patience of one ends the run after the second epoch; with a
    loss that improves every epoch the run lasts its ten epochs; with a loss
    that is not finite the run ends after the first epoch. *)
Example builtin_run_flat_loss :
  epochs_run 0 (fun _ _ => "status") builtin_trainer
             (mkOutside (fun _ => Finite 1) (fun _ => true) (fun _ => false)) = 2%nat.
Proof. reflexivity. Qed.

Example builtin_run_improving_loss :
  epochs_run 0 (fun _ _ => "status") builtin_trainer
             (mkOutside (fun e => Finite (1 # Pos.of_succ_nat e)) (fun _ => true)
                        (fun _ => false))
  = 10%nat.
Proof. reflexivity. Qed.

Example builtin_run_diverged_loss :
  epochs_run 0 (fun _ _ => "status") builtin_trainer
             (mkOutside (fun _ => NonFinite) (fun _ => true) (fun _ => false)) = 1%nat.
Proof. reflexivity. Qed.

(** One draw of one half for each leaf: the midpoints of the four ranges. *)
Example generate_hyperparameters_midpoints :
  fst (generate_hyperparameters half_draws) !! "scheduler"
  = Some {[ "step_size" := (5 + (10 - 5) * (1 # 2))%Q;
            "gamma" := ((1 # 10) + ((1 # 2) - (1 # 10)) * (1 # 2))%Q ]}.
Proof. reflexivity. Qed.

(** * Further properties of the notebooks' code *)

(** ** The hyperparameter search loop *)

Lemma advance_zero (g : Generator) : advance 0 g = g.
Proof. now destruct g. Qed.

Lemma advance_advance (a b : nat) (g : Generator) :
  advance a (advance b g) = advance (a + b) g.
Proof. unfold advance. cbn. f_equal. lia. Qed.

Lemma unit_draws_advance (k : nat) (g : Generator) :
  unit_draws g -> unit_draws (advance k g).
Proof. intros Hg n. exact (Hg n). Qed.

Lemma hyperparameter_search_unfold (turns : nat) (g : Generator) :
  hyperparameter_search (S turns) g
  = ((resnet (fst (generate_hyperparameters g)), search_trainer)
       :: fst (hyperparameter_search turns (advance 4 g)),
     snd (hyperparameter_search turns (advance 4 g))).
Proof.
  cbn [hyperparameter_search]. rewrite generate_hyperparameters_eq.
  now destruct (hyperparameter_search turns (advance 4 g)).
Qed.

Lemma hyperparameter_search_spec (turns : nat) (g : Generator) :
  length (fst (hyperparameter_search turns g)) = turns /\
  snd (hyperparameter_search turns g) = advance (4 * turns) g /\
  forall k, (k < turns)%nat ->
    fst (hyperparameter_search turns g) !! k
    = Some (resnet (fst (generate_hyperparameters (advance (4 * k) g))), search_trainer).
Proof.
  revert g. induction turns as [|turns IH]; intros g.
  - cbn. split; [reflexivity|]. split; [now rewrite advance_zero|]. intros k Hk. lia.
  - rewrite hyperparameter_search_unfold. cbn [fst snd length].
    destruct (IH (advance 4 g)) as (Hlen & Hgen & Hruns).
    split; [now rewrite Hlen|]. split.
    + rewrite Hgen, advance_advance. f_equal. lia.
    + intros [|k] Hk.
      * cbn [lookup list_lookup]. reflexivity.
      * cbn [lookup list_lookup]. change (?l !! k) with (l !! k).
        rewrite Hruns by lia. rewrite advance_advance.
        replace (4 * k + 4)%nat with (4 * S k)%nat by lia. reflexivity.
Qed.

(** X1.  The search loop: [turns] turns configure [turns] runs, each with the
    callback-free ten-epoch trainer and the ten class labels; turn [k] draws
    its dictionary from draws [4k .. 4k+3] of the generator, so no two turns
    share a draw; every dictionary passes the range check; and the loop
    leaves the generator [4 * turns] draws further. *)
Theorem X1_hyperparameter_search_runs (turns : nat) (g : Generator) :
  unit_draws g ->
  length (fst (hyperparameter_search turns g)) = turns /\
  snd (hyperparameter_search turns g) = advance (4 * turns) g /\
  (forall k, (k < turns)%nat ->
     fst (hyperparameter_search turns g) !! k
     = Some (resnet (fst (generate_hyperparameters (advance (4 * k) g))), search_trainer)) /\
  Forall (fun run => in_search_space (hyperparameters (fst run)) = true /\
                     num_classes (fst run) = 10%nat /\
                     max_epochs (snd run) = 10%nat /\
                     callbacks (snd run) = [])
         (fst (hyperparameter_search turns g)).
Proof.
  intros Hg. destruct (hyperparameter_search_spec turns g) as (Hlen & Hgen & Hruns).
  split; [exact Hlen|]. split; [exact Hgen|]. split; [exact Hruns|].
  apply Forall_lookup_2. intros k run Hrun.
  assert (Hk : (k < turns)%nat).
  { rewrite <- Hlen. eapply lookup_lt_Some. exact Hrun. }
  rewrite Hruns in Hrun by exact Hk. injection Hrun as <-.
  split; [|split; [|split]; reflexivity].
  exact (generated_in_search_space _ (unit_draws_advance (4 * k) g Hg)).
Qed.

Lemma X1_hyperparameter_search_runs_witness :
  unit_draws half_draws /\
  length (fst (hyperparameter_search n_samples half_draws)) = n_samples.
Proof.
  split; [exact half_draws_unit|].
  exact (proj1 (X1_hyperparameter_search_runs n_samples half_draws half_draws_unit)).
Defined.


(** ** The data module against the native loaders *)

Lemma TensorDataset_init_two (x y : Tensor.t) :
  TensorDataset_init [x; y]
  = match Tensor.shape x, Tensor.shape y with
    | n :: _, m :: _ =>
        if (n =? m)%nat then Ok (mkTensorDataset [x; y]) else Raise AssertionError
    | _, _ => Raise (IndexError "Dimension specified as 0 but tensor has no dimensions")
    end.
Proof.
  unfold TensorDataset_init. cbn [check_sizes]. unfold Tensor.size0.
  destruct (Tensor.shape x) as [|n shape_x]; [reflexivity|].
  cbn [rbind]. rewrite Nat.eqb_refl.
  destruct (Tensor.shape y) as [|m shape_y]; [reflexivity|].
  cbn [rbind]. now destruct (n =? m)%nat.
Qed.

(** X4.  For any two tensors, the native cell builds what the Lightning data
    module with batch size 16 builds: each native loader is the result of
    constructing [DataModule(x, y, 16)] and calling the accessor, failures
    included.  When [x] or [y] has no dimension all of them raise
    [IndexError]; when the first dimensions disagree all of them fail the
    data set's assertion; when they agree the data module is built, the
    validation loaders are returned, and the training loaders are returned
    unless the data set is empty (the shuffling loader refuses it). *)
Theorem X4_data_module_matches_native (x y : Tensor.t) :
  native_train_dataloader x y
  = (let* dm := DataModule.init x y 16 in DataModule.train_dataloader dm) /\
  native_val_dataloader x y
  = (let* dm := DataModule.init x y 16 in DataModule.val_dataloader dm) /\
  match Tensor.shape x, Tensor.shape y with
  | n :: _, m :: _ =>
      if (n =? m)%nat
      then DataModule.init x y 16
           = Ok (DataModule.mk (mkTensorDataset [x; y]) (mkTensorDataset [x; y]) 16) /\
           native_val_dataloader x y
           = Ok (mkDataLoader (mkTensorDataset [x; y]) (Some 16%Z) (Some false)
                              None None None None None) /\
           native_train_dataloader x y
           = (if (n =? 0)%nat
              then Raise (ValueError "num_samples should be a positive integer value")
              else Ok (mkDataLoader (mkTensorDataset [x; y]) (Some 16%Z) (Some true)
                                    None None None None None))
      else DataModule.init x y 16 = Raise AssertionError /\
           native_val_dataloader x y = Raise AssertionError /\
           native_train_dataloader x y = Raise AssertionError
  | _, _ =>
      DataModule.init x y 16
      = Raise (IndexError "Dimension specified as 0 but tensor has no dimensions") /\
      native_val_dataloader x y
      = Raise (IndexError "Dimension specified as 0 but tensor has no dimensions") /\
      native_train_dataloader x y
      = Raise (IndexError "Dimension specified as 0 but tensor has no dimensions")
  end.
Proof.
  unfold native_train_dataloader, native_val_dataloader, DataModule.init,
    DataModule.train_dataloader, DataModule.val_dataloader.
  rewrite TensorDataset_init_two.
  destruct (Tensor.shape x) as [|n shape_x] eqn:Hx.
  { repeat split. }
  destruct (Tensor.shape y) as [|m shape_y] eqn:Hy.
  { repeat split. }
  destruct (n =? m)%nat; cbn [rbind]; [|repeat split].
  cbn [DataModule.train_dataset DataModule.val_dataset DataModule.batch_size].
  rewrite !DataLoader_init_plain, N_of_nat_eqb_0.
  split; [reflexivity|]. split; [reflexivity|].
  split; [reflexivity|]. split; [reflexivity|].
  replace (len (mkTensorDataset [x; y])) with n
    by (change (len (mkTensorDataset [x; y])) with (hd 0%nat (Tensor.shape x));
        now rewrite Hx).
  reflexivity.
Qed.

(** ** How the loaders cut the data into batches *)

(** ** How the loaders cut the data into batches *)

Lemma batched_nil {A : Type} (b fuel : nat) : batched b fuel ([] : list A) = [].
Proof. now destruct fuel. Qed.

(** Batch [i] is the [b] elements from position [i * b] on. *)
Lemma batched_lookup {A : Type} (b fuel : nat) (l : list A) (i : nat) :
  (0 < b)%nat -> (length l <= fuel)%nat -> (i * b < length l)%nat ->
  batched b fuel l !! i = Some (take b (drop (i * b) l)).
Proof.
  intros Hb. revert l i.
  induction fuel as [|fuel IH]; intros l i Hl Hi; [lia|].
  destruct l as [|a l]; [cbn in Hi; lia|].
  cbn [batched]. destruct i as [|i].
  - reflexivity.
  - cbn [lookup list_lookup]. change (?t !! i) with (t !! i).
    rewrite IH.
    + rewrite drop_drop. do 2 f_equal; lia.
    + rewrite length_drop. cbn [length] in *. lia.
    + rewrite length_drop. cbn [length] in *. lia.
Qed.

Lemma batched_length {A : Type} (b fuel : nat) (l : list A) :
  (0 < b)%nat -> (length l <= fuel)%nat ->
  length (batched b fuel l) = ((length l + b - 1) / b)%nat.
Proof.
  intros Hb. revert l.
  induction fuel as [|fuel IH]; intros l Hl.
  - destruct l; [|cbn in Hl; lia]. cbn. symmetry. apply Nat.div_small. lia.
  - destruct l as [|a l].
    + cbn. symmetry. apply Nat.div_small. lia.
    + cbn [batched length]. rewrite IH by (rewrite length_drop; cbn [length] in *; lia).
      rewrite length_drop. cbn [length].
      destruct (decide (S (length l) <= b)%nat) as [Hle|Hgt].
      * replace (S (length l) - b)%nat with 0%nat by lia.
        rewrite (Nat.div_small (0 + b - 1) b) by lia.
        apply (Nat.div_unique _ _ 1 (S (length l) - 1)); lia.
      * replace (S (length l) + b - 1)%nat
          with (S (length l) - b + b - 1 + 1 * b)%nat by lia.
        rewrite Nat.div_add by lia. lia.
Qed.

(** X5.  What the regression data module's validation loader serves, for a
    positive batch size [b] over [n] samples: [ceil(n / b)] batches, batch
    [i] being the samples [i*b, ..., min(n, (i+1)*b) - 1] in index order; the
    last batch is kept when it is short. *)
Theorem X5_validation_batches (self : DataModule.t) (perm : list nat) :
  (0 < DataModule.batch_size self)%Z ->
  let b := Z.to_nat (DataModule.batch_size self) in
  let n := len (DataModule.val_dataset self) in
  exists loader served,
    DataModule.val_dataloader self = Ok loader /\
    iterate loader perm = Ok served /\
    length served = ((n + b - 1) / b)%nat /\
    forall i, (i * b < n)%nat ->
      served !! i
      = Some (map (getitem (DataModule.val_dataset self))
                  (seq (i * b) (Nat.min b (n - i * b)))).
Proof.
  intros Hb b n. unfold DataModule.val_dataloader.
  rewrite DataLoader_init_plain. cbn [andb].
  destruct (DataModule.batch_size self <=? 0)%Z eqn:E; [apply Z.leb_le in E; lia|].
  eexists _, _. split; [reflexivity|].
  unfold iterate. cbn. rewrite E.
  split; [reflexivity|].
  fold b. fold n.
  assert (Hpos : (0 < b)%nat) by (subst b; lia).
  split.
  - rewrite length_map, batched_length by (rewrite ?length_seq; lia).
    now rewrite length_seq.
  - intros i Hi. rewrite list_lookup_fmap, batched_lookup
      by (rewrite ?length_seq; lia).
    cbn [fmap option_fmap option_map]. do 2 f_equal.
    rewrite drop_seq, take_seq. reflexivity.
Qed.

Lemma X5_validation_batches_witness :
  exists x y g' dm loader served,
    prepare_dataset half_draws = Ok (x, y, g') /\
    DataModule.init x y 16 = Ok dm /\
    (0 < DataModule.batch_size dm)%Z /\
    DataModule.val_dataloader dm = Ok loader /\
    iterate loader [] = Ok served /\
    length served = 32%nat.
Proof.
  pose proof (prepare_dataset_eq half_draws) as Heq. cbv zeta in Heq.
  eexists _, _, _, _.
  match type of Heq with
  | _ = Ok (Tensor.mk _ ?xs, Tensor.mk _ ?ys, _) =>
      pose proof (TensorDataset_init_pair 500 xs ys) as Hinit;
      destruct (X5_validation_batches
                  (DataModule.mk
                     (mkTensorDataset [Tensor.mk [500; 1]%nat xs; Tensor.mk [500; 1]%nat ys])
                     (mkTensorDataset [Tensor.mk [500; 1]%nat xs; Tensor.mk [500; 1]%nat ys])
                     16)
                  [] eq_refl) as (loader & served & Hloader & Hserved & Hlen & _)
  end.
  exists loader, served.
  split; [exact Heq|].
  split; [unfold DataModule.init; rewrite Hinit; reflexivity|].
  split; [reflexivity|].
  split; [exact Hloader|].
  split; [exact Hserved|exact Hlen].
Defined.

(** ** The image transform on three-channel images *)

Lemma three_channels (img : Image) :
  length img = 3%nat -> exists r gr b, img = [r; gr; b].
Proof.
  destruct img as [|r [|gr [|b [|]]]]; try discriminate. eauto.
Qed.

Lemma transform_three (r gr b : list Q) :
  apply_transform transform [r; gr; b]
  = Ok (map (map (fun p => ((p / 255 - (1 # 2)) / (1 # 2))%Q)) [r; gr; b]).
Proof.
  cbn. unfold normalize. cbn.
  change (Qeq_bool (1 # 2) 0) with false. cbn.
  now rewrite !map_map.
Qed.

Lemma normalised_pixel_range (p : Q) :
  (0 <= p)%Q /\ (p <= 255)%Q ->
  (-1 <= (p / 255 - (1 # 2)) / (1 # 2))%Q /\ ((p / 255 - (1 # 2)) / (1 # 2) <= 1)%Q.
Proof.
  intros [H0 H1].
  assert (Heq : ((p / 255 - (1 # 2)) / (1 # 2) == p * (2 # 255) - 1)%Q) by field.
  rewrite Heq. split; lra.
Qed.

(** X7.  On a three-channel image whose pixel values are 8-bit (between 0 and
    255), [transform] succeeds, keeps the dimensions, and gives values
    between -1 and 1. *)
Theorem X7_transform_range (img : Image) :
  length img = 3%nat ->
  Forall (Forall (fun p => (0 <= p)%Q /\ (p <= 255)%Q)) img ->
  exists normalised,
    apply_transform transform img = Ok normalised /\
    map length normalised = map length img /\
    Forall (Forall (fun v => (-1 <= v)%Q /\ (v <= 1)%Q)) normalised.
Proof.
  intros Hlen Hpix. destruct (three_channels img Hlen) as (r & gr & b & ->).
  eexists. split; [apply transform_three|]. split.
  - cbn [map]. now rewrite !length_map.
  - apply Forall_fmap. eapply Forall_impl; [exact Hpix|].
    intros channel Hchannel. cbn beta. apply Forall_fmap.
    eapply Forall_impl; [exact Hchannel|].
    intros p Hp. cbn beta. now apply normalised_pixel_range.
Qed.

Lemma X7_transform_range_witness :
  length sample_image = 3%nat /\
  Forall (Forall (fun p => (0 <= p)%Q /\ (p <= 255)%Q)) sample_image /\
  exists normalised,
    apply_transform transform sample_image = Ok normalised /\
    map length normalised = map length sample_image /\
    Forall (Forall (fun v => (-1 <= v)%Q /\ (v <= 1)%Q)) normalised.
Proof.
  assert (Hpix : Forall (Forall (fun p => (0 <= p)%Q /\ (p <= 255)%Q)) sample_image).
  { repeat constructor; discriminate. }
  split; [reflexivity|]. split; [exact Hpix|].
  exact (X7_transform_range sample_image eq_refl Hpix).
Defined.

(** X8.  [transform] and [denorm_fn] fit three-channel images only: on an
    image with any other number of channels (none, one, two, four or more)
    both raise, the three means and deviations matching neither the channels
    nor a single value. *)
Theorem X8_transform_needs_three_channels (img : Image) :
  length img <> 3%nat ->
  apply_transform transform img
  = Raise (RuntimeError "parameters do not match the channels") /\
  apply_transform denorm_fn img
  = Raise (RuntimeError "parameters do not match the channels").
Proof.
  intros Hlen. cbn. unfold normalize. cbn. rewrite length_map.
  change (Qeq_bool (1 # 2) 0) with false. change (Qeq_bool 2 0) with false.
  revert Hlen. destruct (length img) as [|[|[|[|n]]]]; intros Hlen;
    try (split; reflexivity). congruence.
Qed.

Lemma X8_transform_needs_three_channels_witness :
  length [[0; 255]%Q] <> 3%nat /\
  apply_transform transform [[0; 255]%Q]
  = Raise (RuntimeError "parameters do not match the channels").
Proof.
  split; [discriminate|].
  refine (proj1 (X8_transform_needs_three_channels [[0; 255]%Q] _)). discriminate.
Defined.


(** ** Every training sample once per epoch *)

(** X9.  With a positive batch size and a data set that is not empty, the
    regression data module's training loader is returned and, when the
    library's shuffle picks a permutation of the indices, one pass over it
    serves every stored sample exactly once: the batches put end to end are a
    permutation of the samples. *)
Theorem X9_training_epoch_is_permutation (self : DataModule.t) (perm : list nat) :
  (0 < DataModule.batch_size self)%Z ->
  (0 < len (DataModule.train_dataset self))%nat ->
  Permutation perm (seq 0 (len (DataModule.train_dataset self))) ->
  exists loader served,
    DataModule.train_dataloader self = Ok loader /\
    iterate loader perm = Ok served /\
    Permutation (concat served) (samples (DataModule.train_dataset self)).
Proof.
  intros Hb Hn Hperm.
  assert (Hlen : (length perm <= len (DataModule.train_dataset self))%nat).
  { apply Permutation_length in Hperm. rewrite length_seq in Hperm. lia. }
  destruct (iterate_shuffled (DataModule.train_dataset self) _ None perm Hb Hn Hlen)
    as (served & Hserved & Hconcat & _).
  unfold DataModule.train_dataloader.
  rewrite DataLoader_init_plain, N_of_nat_eqb_0.
  destruct (len (DataModule.train_dataset self) =? 0)%nat eqn:En;
    [apply Nat.eqb_eq in En; lia|].
  destruct (DataModule.batch_size self <=? 0)%Z eqn:E; [apply Z.leb_le in E; lia|].
  cbn [andb].
  eexists _, served. split; [reflexivity|]. split; [exact Hserved|].
  rewrite Hconcat. unfold samples. now apply Permutation_map.
Qed.

Lemma X9_training_epoch_is_permutation_witness :
  (0 < DataModule.batch_size small_data_module)%Z /\
  (0 < len (DataModule.train_dataset small_data_module))%nat /\
  Permutation [2; 0; 4; 1; 3]%nat (seq 0 (len (DataModule.train_dataset small_data_module))) /\
  exists loader served,
    DataModule.train_dataloader small_data_module = Ok loader /\
    iterate loader [2; 0; 4; 1; 3]%nat = Ok served /\
    Permutation (concat served) (samples (DataModule.train_dataset small_data_module)).
Proof.
  assert (Hperm : Permutation [2; 0; 4; 1; 3]%nat
                    (seq 0 (len (DataModule.train_dataset small_data_module)))).
  { cbn. apply (NoDup_Permutation_bis); [repeat constructor; cbn; lia|cbn; lia|].
    intros k Hk. cbn in *. lia. }
  assert (Hn : (0 < len (DataModule.train_dataset small_data_module))%nat) by (cbn; lia).
  split; [reflexivity|]. split; [exact Hn|]. split; [exact Hperm|].
  exact (X9_training_epoch_is_permutation small_data_module _ eq_refl Hn Hperm).
Defined.

(** ** Running the environment cell again *)

(** X10.  The environment cell is idempotent and adds exactly its three
    names: running it twice leaves the environment as running it once, and
    the variables set afterwards are those set before together with the
    three Slack variables. *)
Theorem X10_set_slack_environment_idempotent (environ : gmap string string) :
  set_slack_environment (set_slack_environment environ) = set_slack_environment environ /\
  dom (set_slack_environment environ) = dom environ ∪ list_to_set slack_variables.
Proof.
  split.
  - apply map_eq. intros k. unfold set_slack_environment.
    rewrite !lookup_insert.
    repeat match goal with |- context [decide ?P] => destruct (decide P) end;
      reflexivity.
  - unfold set_slack_environment, slack_variables. rewrite !dom_insert_L.
    cbn [list_to_set]. apply set_eq. intros k.
    rewrite !elem_of_union, !elem_of_singleton, elem_of_empty. tauto.
Qed.


(** ** When the run with the built-in callbacks ends *)

(** X11.  The run of the built-in callbacks cell (patience 1, mode "min", the
    library's check for finite values, ten epochs at most) lasts between one
    and ten epochs.  Every epoch before its last had a finite validation
    loss, strictly below the previous epoch's.  When it ends before the tenth
    epoch, the loss of its last epoch is not finite, or the run is at least
    two epochs long and that loss is not below the loss of the epoch before. *)
Theorem X11_builtin_run_ends_at_first_stall (phase : nat)
    (format_status : nat -> Metric -> string) (out : Outside) :
  let n := epochs_run phase format_status builtin_trainer out in
  (1 <= n <= 10)%nat /\
  (forall e, (S e < n)%nat ->
     exists current,
       val_loss out e = Finite current /\
       ((1 <= e)%nat ->
        exists before, val_loss out (e - 1) = Finite before /\ (current < before)%Q)) /\
  ((n < 10)%nat ->
   val_loss out (n - 1) = NonFinite \/
   ((2 <= n)%nat /\
    exists before current,
      val_loss out (n - 2) = Finite before /\
      val_loss out (n - 1) = Finite current /\
      (before <= current)%Q)).
Proof.
  intros n. subst n. unfold epochs_run.
  destruct (builtin_run phase format_status out) as (Hrange & Himproved & Hlast).
  split; [exact Hrange|]. split; [exact Himproved|].
  intros Hn. destruct (Hlast Hn) as [Hnon|(H2 & _ & Hstall)]; [left|right]; auto.
Qed.

(** ** The inputs of the regression data set *)

(** X12.  The inputs [x] of the regression data set are strictly increasing
    along the rows and all lie between 0 and 1. *)
Theorem X12_inputs_increasing (g : Generator) :
  exists x y g',
    prepare_dataset g = Ok (x, y, g') /\
    (forall i xi, Tensor.data x !! i = Some xi -> (0 <= xi)%Q /\ (xi <= 1)%Q) /\
    (forall i j xi xj,
        Tensor.data x !! i = Some xi -> Tensor.data x !! j = Some xj ->
        (i < j)%nat -> (xi < xj)%Q).
Proof.
  pose proof (prepare_dataset_eq g) as Heq. cbv zeta in Heq.
  eexists _, _, _. split; [exact Heq|]. cbn [Tensor.data].
  assert (Hval : forall i xi,
             Tensor.data (Tensor.linspace 0 1 500) !! i = Some xi ->
             (i < 500)%nat /\ (xi == inject_Z (Z.of_nat i) * (1 # 499))%Q).
  { intros i xi Hi.
    assert (Hlt : (i < 500)%nat).
    { apply lookup_lt_Some in Hi. now rewrite linspace_length in Hi. }
    split; [exact Hlt|].
    rewrite linspace_lookup in Hi by exact Hlt. injection Hi as <-.
    change (inject_Z (Z.of_nat 500) - 1)%Q with (499 # 1)%Q. field. }
  split.
  - intros i xi Hi. destruct (Hval i xi Hi) as [Hlt ->].
    assert (H0 : (inject_Z 0 <= inject_Z (Z.of_nat i))%Q) by (rewrite <- Zle_Qle; lia).
    assert (H1 : (inject_Z (Z.of_nat i) <= inject_Z 499)%Q) by (rewrite <- Zle_Qle; lia).
    change (inject_Z 0) with 0%Q in H0. change (inject_Z 499) with 499%Q in H1.
    set (q := inject_Z (Z.of_nat i)) in *. clearbody q. split; lra.
  - intros i j xi xj Hi Hj Hij.
    destruct (Hval i xi Hi) as [_ ->]. destruct (Hval j xj Hj) as [_ ->].
    assert (H : (inject_Z (Z.of_nat i) < inject_Z (Z.of_nat j))%Q)
      by (rewrite <- Zlt_Qlt; lia).
    set (p := inject_Z (Z.of_nat i)) in *. set (q := inject_Z (Z.of_nat j)) in *.
    clearbody p q. lra.
Qed.
